(** * Element annotator and click tool of the website interaction agent

    A shallow embedding of [sully_utils.py] (the element annotator of
    [WebsiteInteractionAgent]) and of [website_interaction_tools.py]
    (the click tool), with the properties the specification states
    about them. *)

From Stdlib Require Import ZArith Ascii String List Lia.
From stdpp Require Import base decidable option list strings pretty gmap.
From stdpp Require Import sorting.



(** ** Python values: strings, truthiness, indexing, exceptions *)

Module Py.

(** A Python [str] is a Rocq [string], one [ascii] per character. *)

Definition dquote : string := String "034"%char EmptyString.
Definition tab : string := String "009"%char EmptyString.

(** [bool(s)] for a string. *)
Definition truthy (s : string) : bool :=
  match s with
  | EmptyString => false
  | String _ _ => true
  end.

(** [bool(x)] for a value that is [None] or a string. *)
Definition truthy_opt (o : option string) : bool :=
  match o with
  | Some s => truthy s
  | None => false
  end.

(** [bool(l)] for a value that is [None] or a list. *)
Definition truthy_list {A} (o : option (list A)) : bool :=
  match o with
  | Some (_ :: _) => true
  | _ => false
  end.

(** [f"{x}"] for a value that is [None] or a string. *)
Definition fmt_opt (o : option string) : string :=
  match o with
  | Some s => s
  | None => "None"
  end.

(** [str.lower()].  On the letters A-Z this is the usual shift; no other
    character lower-cases to a letter of input, textarea or button. *)
Definition lower_char (c : ascii) : ascii :=
  let n := nat_of_ascii c in
  if (65 <=? n)%nat && (n <=? 90)%nat then ascii_of_nat (n + 32) else c.

Fixpoint lower (s : string) : string :=
  match s with
  | EmptyString => EmptyString
  | String c r => String (lower_char c) (lower r)
  end.

(** [needle in hay] for two strings. *)
Fixpoint contains (needle hay : string) : bool :=
  String.prefix needle hay ||
  match hay with
  | EmptyString => false
  | String _ r => contains needle r
  end.

(** [x in l] where [x] is [None] or a string and [l] a list of strings. *)
Definition opt_in (x : option string) (l : list string) : bool :=
  match x with
  | Some s => bool_decide (s ∈ l)
  | None => false
  end.

(** [sep.join(l)] for a list of strings. *)
Fixpoint join (sep : string) (l : list string) : string :=
  match l with
  | [] => EmptyString
  | [x] => x
  | x :: r => x +:+ sep +:+ join sep r
  end.

(** Iterating over a string yields its characters as strings. *)
Fixpoint chars (s : string) : list string :=
  match s with
  | EmptyString => []
  | String c r => String c EmptyString :: chars r
  end.

(** [l[i]] with Python's negative indices; [None] is [IndexError]. *)
Definition index {A} (l : list A) (i : Z) : option A :=
  if (0 <=? i)%Z then l !! Z.to_nat i
  else if (- Z.of_nat (length l) <=? i)%Z then l !! Z.to_nat (Z.of_nat (length l) + i)
  else None.

Inductive exn : Type :=
| IndexError (msg : string)
| JavascriptException (msg : string)
| StaleElementReferenceException (msg : string)
| WebDriverException (msg : string).

(** [str(e)] *)
Definition str_exn (e : exn) : string :=
  match e with
  | IndexError m | JavascriptException m
  | StaleElementReferenceException m | WebDriverException m => m
  end.

Inductive outcome (A : Type) : Type :=
| Return (a : A)
| Raise (e : exn).
Arguments Return {A} a.
Arguments Raise {A} e.

(** Values stored in the dictionaries the tools return. *)
Inductive val : Type :=
| VInt (z : Z)
| VStr (s : string).

End Py.

(** ** The page as the browser driver shows it *)

Module Dom.

Definition Node := nat.

(** A Selenium [WebElement]: a reference to a live node, with what
    [tag_name] and [get_attribute] report for it. *)
Record WebElement : Type := {
  node : Node;
  tag_name : string;
  attributes : gmap string string
}.

Definition get_attribute (e : WebElement) (name : string) : option string :=
  attributes e !! name.

(** One entry of [items_raw]: the keys ['text'] and ['element']. *)
Record RawItem : Type := {
  text : string;
  element : WebElement
}.

(** The page: the interactive elements a walk of the DOM discovers, the
    marker nodes that are children of [document.body], and the supply of
    fresh nodes. *)
Record Page : Type := {
  discovered : list RawItem;
  body_markers : list Node;
  next_node : Node
}.

(** Modelled from the spec: the in-page annotation script of
    [label_script.txt], which is not among the sources.  For each
    discovered element, in DOM traversal order, it overlays one new
    marker node on the page; it returns the markers and the raw items.
    The colour function changes the rendering only. *)
Definition label_script (color_function : string) (p : Page)
  : (list Node * list RawItem) * Page :=
  let n := length (discovered p) in
  let rects := seq (next_node p) n in
  (rects, discovered p,
   {| discovered := discovered p;
      body_markers := body_markers p ++ rects;
      next_node := next_node p + n |}).

(** [document.body.removeChild(m)]: [None] is the [NotFoundError] the
    DOM throws when [m] is not a child of the body. *)
Fixpoint removeChild (m : Node) (body : list Node) : option (list Node) :=
  match body with
  | [] => None
  | x :: r => if decide (x = m) then Some r else (x ::.) <$> removeChild m r
  end.

(** [js_del_script]: the loop over [arguments[0]]; the first throw ends
    the script, and what was removed before stays removed. *)
Fixpoint js_del_script (args : list Node) (body : list Node)
  : option Py.exn * list Node :=
  match args with
  | [] => (None, body)
  | m :: r =>
      match removeChild m body with
      | Some body' => js_del_script r body'
      | None => (Some (Py.JavascriptException "NotFoundError"), body)
      end
  end.

(** [browser.execute_script(js_del_script, args)].  Before the script
    runs, the driver resolves the element references among its
    arguments; a marker that is no longer in the document is a stale
    element reference, and then the script does not run at all.  A marker
    is in the document exactly while it is a child of the body, where the
    annotation script put it. *)
Definition execute_del_script (args : list Node) (body : list Node)
  : option Py.exn * list Node :=
  if bool_decide (Forall (λ m, m ∈ body) args)
  then js_del_script args body
  else (Some (Py.StaleElementReferenceException "stale element reference"), body).

(** A node of the page removed by someone other than the annotator. *)
Definition external_remove (m : Node) (p : Page) : Page :=
  {| discovered := discovered p;
     body_markers := filter (λ x, x ≠ m) (body_markers p);
     next_node := next_node p |}.

End Dom.

(** ** The session state shared by the agent and its tools *)

Module Session.

(** The keys of [session.state] the annotator and the click tool use.
    [None] stands for a missing key as well as for a stored [None]:
    [dict.get] does not tell them apart. *)
Record State : Type := {
  webdriver : option nat;
  web_elements : option (list Dom.WebElement);
  formatted_ele_text : option string
}.

Definition empty : State :=
  {| webdriver := None; web_elements := None; formatted_ele_text := None |}.

End Session.

(** ** [WebsiteInteractionAgent]: the element annotator *)

Module Annotator.
Import Py Dom.

(** The fields of the agent the annotator reads and writes.  [rects] is
    [None] when the attribute is not set ([hasattr(self, 'rects')] is
    false).  A screenshot is what it shows: the markers on the page. *)
Record Agent : Type := {
  browser : Page;
  rects : option (list Node);
  state : Session.State;
  image_part : option (list Node)
}.

Definition input_attr_types : list string :=
  ["text"; "search"; "password"; "email"; "tel"].

(** The body of the loop of [get_web_element_rect] for one element: the
    line appended to [format_ele_text], if any. *)
Definition format_entry (web_ele_id : nat) (item : RawItem) : option string :=
  let label_text := text item in
  let ele_tag_name := tag_name (element item) in
  let ele_type := get_attribute (element item) "type" in
  let ele_aria_label := get_attribute (element item) "aria-label" in
  if negb (truthy label_text) then
    if bool_decide (lower ele_tag_name = "input") && opt_in ele_type input_attr_types
       || bool_decide (lower ele_tag_name = "textarea")
       || bool_decide (lower ele_tag_name = "button") && opt_in ele_type ["submit"; "button"]
    then
      if truthy_opt ele_aria_label then
        Some ("[" +:+ pretty web_ele_id +:+ "]: <" +:+ ele_tag_name +:+ "> "
              +:+ dquote +:+ fmt_opt ele_aria_label +:+ dquote +:+ ";")
      else
        Some ("[" +:+ pretty web_ele_id +:+ "]: <" +:+ ele_tag_name +:+ "> "
              +:+ dquote +:+ label_text +:+ dquote +:+ ";")
    else None
  else if truthy label_text && (String.length label_text <? 200)%nat then
    if negb (contains "<img" label_text && contains "src=" label_text) then
      if bool_decide (ele_tag_name ∈ ["button"; "input"; "textarea"]) then
        if truthy_opt ele_aria_label && negb (bool_decide (ele_aria_label = Some label_text)) then
          Some ("[" +:+ pretty web_ele_id +:+ "]: <" +:+ ele_tag_name +:+ "> "
                +:+ dquote +:+ label_text +:+ dquote +:+ ", "
                +:+ dquote +:+ fmt_opt ele_aria_label +:+ dquote +:+ ";")
        else
          Some ("[" +:+ pretty web_ele_id +:+ "]: <" +:+ ele_tag_name +:+ "> "
                +:+ dquote +:+ label_text +:+ dquote +:+ ";")
      else
        if truthy_opt ele_aria_label && negb (bool_decide (ele_aria_label = Some label_text)) then
          Some ("[" +:+ pretty web_ele_id +:+ "]: "
                +:+ dquote +:+ label_text +:+ dquote +:+ ", "
                +:+ dquote +:+ fmt_opt ele_aria_label +:+ dquote +:+ ";")
        else
          Some ("[" +:+ pretty web_ele_id +:+ "]: "
                +:+ dquote +:+ label_text +:+ dquote +:+ ";")
    else None
  else None.

(** One iteration: [items_raw[web_ele_id]] is read and its line, if it
    has one, is appended. *)
Definition loop_body (items_raw : list RawItem)
    (format_ele_text : list string) (web_ele_id : nat) : list string :=
  match items_raw !! web_ele_id with
  | Some item =>
      match format_entry web_ele_id item with
      | Some line => format_ele_text ++ [line]
      | None => format_ele_text
      end
  | None => format_ele_text
  end.

(** [for web_ele_id in range(len(items_raw))], from the empty list. *)
Definition format_lines (items_raw : list RawItem) : list string :=
  foldl (loop_body items_raw) [] (seq 0 (length items_raw)).

Definition get_web_element_rect (fix_color : bool) (self : Agent)
  : (list Node * list WebElement * string) * Agent :=
  let selected_function :=
    if fix_color then "getFixedColor" else "getRandomColor" in
  let '(rects_, items_raw, page) := label_script selected_function (browser self) in
  let format_ele_text := join tab (format_lines items_raw) in
  ((rects_, element <$> items_raw, format_ele_text),
   {| browser := page; rects := Some rects_;
      state := state self; image_part := image_part self |}).

Definition del_web_element_rect (self : Agent) : outcome unit * Agent :=
  match rects self with
  | Some rs =>
      match execute_del_script rs (body_markers (browser self)) with
      | (None, body) =>
          (Return tt,
           {| browser := {| discovered := discovered (browser self);
                            body_markers := body;
                            next_node := next_node (browser self) |};
              rects := None;
              state := state self; image_part := image_part self |})
      | (Some e, body) =>
          (Raise e,
           {| browser := {| discovered := discovered (browser self);
                            body_markers := body;
                            next_node := next_node (browser self) |};
              rects := rects self;
              state := state self; image_part := image_part self |})
      end
  | None => (Return tt, self)
  end.

(** [browser.save_screenshot] and reading the file back. *)
Definition save_screenshot (self : Agent) : list Node :=
  body_markers (browser self).

Definition get_current_webpage_state (self : Agent) : outcome string * Agent :=
  let '((rects_, element_, element_text), self1) := get_web_element_rect true self in
  let image_bytes := save_screenshot self1 in
  let self2 :=
    {| browser := browser self1; rects := rects self1;
       state := {| Session.webdriver := Session.webdriver (state self1);
                   Session.web_elements := Some element_;
                   Session.formatted_ele_text := Some element_text |};
       image_part := Some image_bytes |} in
  match del_web_element_rect self2 with
  | (Return _, self3) => (Return (join tab (chars element_text)), self3)
  | (Raise e, self3) => (Raise e, self3)
  end.

(** *** Sequences of calls on one agent *)

Inductive Call : Type :=
| Annotate (fix_color : bool)
| Clear.

(** An agent together with the markers its most recent annotation pass
    returned ([None] before the first pass). *)
Record Trace : Type := {
  agent : Agent;
  last_pass : option (list Node)
}.

Definition call_step (t : Trace) (c : Call) : Trace :=
  match c with
  | Annotate fix_color =>
      let '((rects_, _, _), self') := get_web_element_rect fix_color (agent t) in
      {| agent := self'; last_pass := Some rects_ |}
  | Clear =>
      {| agent := (del_web_element_rect (agent t)).2; last_pass := last_pass t |}
  end.

Definition run_calls (cs : list Call) (t : Trace) : Trace :=
  foldl call_step t cs.

(** A freshly created agent on a page without markers. *)
Definition fresh (items : list RawItem) : Trace :=
  {| agent := {| browser := {| discovered := items; body_markers := [];
                               next_node := 0 |};
                 rects := None;
                 state := Session.empty;
                 image_part := None |};
     last_pass := None |}.

(** The decision loop's discipline: an annotation pass is only started
    when the markers of the previous one have been cleared. *)
Fixpoint alternating (pending : bool) (cs : list Call) : bool :=
  match cs with
  | [] => true
  | Annotate _ :: r => negb pending && alternating true r
  | Clear :: r => alternating false r
  end.

(** The markers on the page are none, or exactly those of the most
    recent pass. *)
Definition overlay_ok (t : Trace) : Prop :=
  body_markers (browser (agent t)) = []
  ∨ ∃ ms, last_pass t = Some ms
          ∧ ∀ m, m ∈ body_markers (browser (agent t)) ↔ m ∈ ms.

(** The tracked markers are distinct children of the page body, and the
    body holds no node twice and none that is still to be created. *)
Definition well_tracked (self : Agent) : Prop :=
  NoDup (body_markers (browser self))
  ∧ (∀ m, m ∈ body_markers (browser self) → m < next_node (browser self))
  ∧ ∀ ms, rects self = Some ms →
          NoDup ms ∧ ∀ m, m ∈ ms → m ∈ body_markers (browser self).

(** While an annotation pass is pending its markers are the tracked
    ones and the only ones on the page; otherwise there are none. *)
Definition in_step (pending : bool) (t : Trace) : Prop :=
  if pending
  then ∃ ms, rects (agent t) = Some ms ∧ last_pass t = Some ms
             ∧ body_markers (browser (agent t)) = ms
  else rects (agent t) = None ∧ body_markers (browser (agent t)) = [].

End Annotator.

(** ** [website_interaction_tools.py]: the click tool *)

Module Tools.
Import Py Dom.

(** What the tool acts on through the driver: the log of the elements
    clicked so far, the elements whose click raises (with the message of
    the exception), and the seconds slept. *)
Record World : Type := {
  clicked : list Node;
  click_fault : gmap Node string;
  slept : nat
}.

(** [element.click()] *)
Definition click (e : WebElement) (w : World) : outcome unit * World :=
  match click_fault w !! node e with
  | Some msg => (Raise (WebDriverException msg), w)
  | None =>
      (Return tt,
       {| clicked := clicked w ++ [node e];
          click_fault := click_fault w; slept := slept w |})
  end.

(** [time.sleep(n)] *)
Definition sleep (n : nat) (w : World) : World :=
  {| clicked := clicked w; click_fault := click_fault w; slept := slept w + n |}.

(** The statements under [try:]. *)
Definition click_body (web_element_num : Z)
    (web_elements : list WebElement) (w : World)
  : outcome (gmap string val) * World :=
  match index web_elements web_element_num with
  | None => (Raise (IndexError "list index out of range"), w)
  | Some e =>
      match click e w with
      | (Raise ex, w1) => (Raise ex, w1)
      | (Return _, w1) =>
          (Return {[ "status" := VInt 200;
                     "message" := VStr ("Clicked on web element number "
                                        +:+ pretty web_element_num +:+ ".") ]},
           sleep 2 w1)
      end
  end.

Definition tool_click_web_element (web_element_num : Z)
    (tool_context : Session.State) (w : World)
  : outcome (gmap string val) * World :=
  let browser := Session.webdriver tool_context in
  if negb (bool_decide (is_Some browser)) then
    (Return {[ "error" := VStr "No browser instance found in tool context." ]}, w)
  else
    let web_elements := Session.web_elements tool_context in
    if negb (truthy_list web_elements)
       || (Z.of_nat (length (default [] web_elements)) <=? web_element_num)%Z
    then
      (Return {[ "error" := VStr ("Web element number "
                                  +:+ pretty web_element_num
                                  +:+ " is out of range.") ]}, w)
    else
      match click_body web_element_num (default [] web_elements) w with
      | (Raise e, w1) => (Return {[ "error" := VStr (str_exn e) ]}, w1)
      | r => r
      end.

(** A dictionary with an ["error"] entry. *)
Definition is_error (d : gmap string val) : Prop :=
  ∃ msg, d = {[ "error" := VStr msg ]}.

(** A dictionary whose ["status"] is 200. *)
Definition is_ok (d : gmap string val) : Prop :=
  d !! "status" = Some (VInt 200) ∧ d !! "error" = None.

End Tools.

(** ** Sample pages *)

Module Samples.
Import Py Dom.

Definition elem (n : Node) (tag : string) (attrs : gmap string string) : WebElement :=
  {| node := n; tag_name := tag; attributes := attrs |}.

Definition div_hi : RawItem :=
  {| text := "Hi"; element := elem 100 "div" ∅ |}.

Definition send_button : RawItem :=
  {| text := EmptyString;
     element := elem 101 "button" {[ "type" := "submit"; "aria-label" := "Send" ]} |}.

Definition submit_button : RawItem :=
  {| text := "Submit";
     element := elem 102 "button" {[ "aria-label" := "submit-form" ]} |}.

Definition text_input : RawItem :=
  {| text := EmptyString; element := elem 103 "input" {[ "type" := "text" ]} |}.

Definition contact_div : RawItem :=
  {| text := "Contact Us"; element := elem 104 "div" ∅ |}.

Definition image_span : RawItem :=
  {| text := "<img src=x.png>"; element := elem 105 "span" ∅ |}.

(** A division with a text of 250 characters. *)
Definition long_div : RawItem :=
  {| text := String.concat EmptyString (replicate 250 "x"); element := elem 108 "div" ∅ |}.

Definition bare_div : RawItem :=
  {| text := EmptyString; element := elem 106 "div" {[ "aria-label" := "menu" ]} |}.

(** A button whose [aria-label] attribute is present and empty. *)
Definition blank_aria_button : RawItem :=
  {| text := "Submit";
     element := elem 107 "button" {[ "aria-label" := EmptyString ]} |}.

Definition page_items : list RawItem :=
  [div_hi; send_button; bare_div; submit_button].

(** An agent after one annotation pass over three elements. *)
Definition annotated : Annotator.Agent :=
  Annotator.agent
    (Annotator.run_calls [Annotator.Annotate true]
       (Annotator.fresh [div_hi; contact_div; submit_button])).

(** The same, after someone else took the second marker off the page. *)
Definition tampered : Annotator.Agent :=
  {| Annotator.browser := external_remove 1 (Annotator.browser annotated);
     Annotator.rects := Annotator.rects annotated;
     Annotator.state := Annotator.state annotated;
     Annotator.image_part := Annotator.image_part annotated |}.

Definition link (n : Node) : WebElement := elem n "a" ∅.

(** The tool context after a pass that handed out two element handles. *)
Definition two_handles : Session.State :=
  {| Session.webdriver := Some 1;
     Session.web_elements := Some [link 10; link 11];
     Session.formatted_ele_text := None |}.

Definition idle : Tools.World :=
  {| Tools.clicked := []; Tools.click_fault := ∅; Tools.slept := 0 |}.

End Samples.

(** ** The specification's wording *)

Module Spec.
Import Py Dom Annotator.






Definition quoted (s : string) : string := dquote +:+ s +:+ dquote.

(** A line with the tag marker, and one without. *)
Definition tagged_line (i : nat) (tag label : string) : string :=
  "[" +:+ pretty i +:+ "]: <" +:+ tag +:+ "> " +:+ label +:+ ";".

Definition plain_line (i : nat) (label : string) : string :=
  "[" +:+ pretty i +:+ "]: " +:+ label +:+ ";".

(** The text, with the aria-label after a comma when [appended]. *)
Definition composed_label (appended : bool) (txt : string) (aria : option string) : string :=
  if appended then quoted txt +:+ ", " +:+ quoted (fmt_opt aria) else quoted txt.

(** The aria-label is present and differs from the text. *)
Definition aria_differs (item : RawItem) : bool :=
  match get_attribute (element item) "aria-label" with
  | Some a => negb (bool_decide (a = text item))
  | None => false
  end.

(** The aria-label is present, is not empty and differs from the text. *)
Definition aria_adds (item : RawItem) : bool :=
  match get_attribute (element item) "aria-label" with
  | Some a => truthy a && negb (bool_decide (a = text item))
  | None => false
  end.

Definition is_control_tag (e : WebElement) : bool :=
  bool_decide (tag_name e ∈ ["button"; "input"; "textarea"]).

(** The line of an element with text, given when the aria-label is
    appended. *)
Definition text_line (appended : RawItem → bool) (i : nat) (item : RawItem) : string :=
  let label := composed_label (appended item) (text item)
                 (get_attribute (element item) "aria-label") in
  if is_control_tag (element item)
  then tagged_line i (tag_name (element item)) label
  else plain_line i label.

(** The (index, element) pairs the loop of [get_web_element_rect] goes
    through. *)
Definition visited (items_raw : list RawItem) : list (nat * RawItem) :=
  omap (λ i, (λ item, (i, item)) <$> items_raw !! i) (seq 0 (length items_raw)).

(** Removal tolerates detached nodes: the call returns, and no tracked
    marker is left on the page. *)
Definition best_effort (self : Agent) : Prop :=
  ∃ self', del_web_element_rect self = (Return tt, self')
           ∧ ∀ ms m, rects self = Some ms → m ∈ ms →
                     m ∉ body_markers (browser self').

(** The element number is none of the positions of the handles. *)
Definition not_handed_out (web_element_num : Z) (handles : list WebElement) : Prop :=
  (web_element_num < 0 ∨ Z.of_nat (length handles) ≤ web_element_num)%Z.

End Spec.

(** ** The other tools and the tool set-up *)

Module Toolbox.
Import Py Dom.

(** The keys of [session.state] written by [run] and by the answer tool.
    [None] is a missing key or a stored [None]. *)
Record Notes : Type := {
  user_task : option string;
  final_answer : option string;
  action_taken : option string
}.

Definition no_notes : Notes :=
  {| user_task := None; final_answer := None; action_taken := None |}.

(** [tool_answer_user_query]; the [print] of the state is left out. *)
Definition tool_answer_user_query (answer : string) (tool_context : Notes)
  : gmap string val * Notes :=
  ({[ "status" := VInt 200; "message" := VStr "Final answer recorded." ]},
   {| user_task := user_task tool_context;
      final_answer := Some answer;
      action_taken := action_taken tool_context |}).

Definition tool_wait (w : Tools.World) : gmap string val * Tools.World :=
  ({[ "status" := VInt 200; "message" := VStr "Waited for 5 seconds." ]},
   Tools.sleep 5 w).

(** The functions of [website_interaction_tools]. *)
Inductive ToolFn : Type :=
| AnswerUserQuery
| Wait
| ClickWebElement.

(** [inspect.getmembers(website_interaction_tools, inspect.isfunction)]:
    the functions of the module with their names, sorted by name, each
    name once. *)
Definition module_functions : list (string * ToolFn) :=
  [("tool_answer_user_query", AnswerUserQuery);
   ("tool_click_web_element", ClickWebElement);
   ("tool_wait", Wait)].

(** The entries of [config] that the modelled code reads. *)
Record Config : Type := {
  allowed_tools : option (list string);
  max_iterations : option Z
}.

(** The dictionary [available_tools], as the list of its items. *)
Definition available_tools {F} (functions : list (string * F)) : list (string * F) :=
  filter (λ p, String.prefix "tool_" p.1 = true) functions.

(** [setup_tools_and_prompt], up to reading the prompt file: the value
    of [self.allowed_tools]. *)
Definition setup_tools {F} (functions : list (string * F)) (config : Config) : list F :=
  let available := available_tools functions in
  let allowed := default (available.*1) (allowed_tools config) in
  omap (λ tool_name, (list_to_map available : gmap string F) !! tool_name) allowed.

End Toolbox.

(** ** The decision loop *)

Module Loop.
Import Py Dom Annotator Toolbox.

(** [types.Part]: a text, or the screenshot. *)
Inductive Part : Type :=
| TextPart (text : string)
| ImagePart (data : option (list Node)).

(** An event of [runner.run_async]. *)
Record Event : Type := {
  is_final_response : bool;
  content : string
}.

(** The loop of [call_llm] over the events: the value returned, the
    events printed, and the counter [iteration] at the end. *)
Fixpoint call_llm_loop (iterations iteration : nat) (printed : list Event)
    (events : list Event) : option string * list Event * nat :=
  match events with
  | [] => (None, printed, iteration)
  | event :: rest =>
      if is_final_response event
      then (Some (content event), printed ++ [event], iteration)
      else
        call_llm_loop iterations
          (if (iterations <=? iteration)%nat then S iteration else iteration)
          (printed ++ [event]) rest
  end.

Definition call_llm (events : list Event) : option string * list Event * nat :=
  call_llm_loop 100 0 [] events.

(** The agent with the rest of its session state. *)
Record Machine : Type := {
  self : Agent;
  notes : Notes
}.

(** What one call of the model through [call_llm] does to the agent, the
    page and the session state; the first argument counts the calls. *)
Definition Model : Type := nat → list Part → Machine → outcome unit * Machine.

Definition failure_message : string :=
  "Unable to find a final answer within the maximum number of iterations.".

Definition update_request : string :=
  "Here is your current webpage state. Please decide what action to take next.".

(** [self.get_current_webpage_state()] inside [run]. *)
Definition observe (m : Machine) : outcome string * Machine :=
  let '(r, self') := get_current_webpage_state (self m) in
  (r, {| self := self'; notes := notes m |}).

(** The [for] loop of [run], with [n] iterations left; next to the result
    it gives the messages sent to the model, in order. *)
Fixpoint run_loop (llm : Model) (n iteration : nat) (parts : list Part)
    (m : Machine) (sent : list (list Part))
  : outcome string * Machine * list (list Part) :=
  match n with
  | 0 => (Return failure_message, m, sent)
  | S n' =>
      match llm iteration parts m with
      | (Raise e, m1) => (Raise e, m1, sent ++ [parts])
      | (Return _, m1) =>
          if truthy_opt (final_answer (notes m1))
          then (Return (fmt_opt (final_answer (notes m1))), m1, sent ++ [parts])
          else
            match observe m1 with
            | (Raise e, m2) => (Raise e, m2, sent ++ [parts])
            | (Return webtext, m2) =>
                run_loop llm n' (S iteration)
                  [TextPart update_request; TextPart webtext;
                   ImagePart (image_part (self m2))]
                  m2 (sent ++ [parts])
            end
      end
  end.

Definition run (llm : Model) (config : Config) (user_query : string) (m : Machine)
  : outcome string * Machine * list (list Part) :=
  let m0 := {| self := self m;
               notes := {| user_task := Some user_query;
                           final_answer := final_answer (notes m);
                           action_taken := action_taken (notes m) |} |} in
  match observe m0 with
  | (Raise e, m1) => (Raise e, m1, [])
  | (Return webtext, m1) =>
      let parts := [TextPart user_query; TextPart webtext;
                    ImagePart (image_part (self m1))] in
      let m2 := {| self := self m1;
                   notes := {| user_task := user_task (notes m1);
                               final_answer := None;
                               action_taken := None |} |} in
      let max_iterations := default 10%Z (max_iterations config) in
      run_loop llm (Z.to_nat max_iterations) 0 parts m2 []
  end.

End Loop.

(** ** Auxiliary notions for the statements *)

Module Facts.
Import Py Dom Annotator Toolbox Loop.

(** The element at position [i] has a line in the formatted text. *)
Definition has_line (items_raw : list RawItem) (i : nat) : Prop :=
  is_Some (items_raw !! i ≫= format_entry i).

Global Instance has_line_dec items_raw i : Decision (has_line items_raw i) :=
  decide (is_Some (items_raw !! i ≫= format_entry i)).

(** The indices of the elements that have a line, in increasing order. *)
Definition line_ids (items_raw : list RawItem) : list nat :=
  filter (has_line items_raw) (seq 0 (length items_raw)).

(** The characters of a decimal numeral. *)
Definition is_digit (c : ascii) : bool :=
  let n := nat_of_ascii c in (48 <=? n)%nat && (n <=? 57)%nat.

Fixpoint all_digits (s : string) : bool :=
  match s with
  | EmptyString => true
  | String c r => is_digit c && all_digits r
  end.

(** A message of the loop after the first one. *)
Definition update_shaped (parts : list Part) : Prop :=
  ∃ webtext img, parts = [TextPart update_request; TextPart webtext; ImagePart img].

(** Called on an orderly agent without an answer in the state, the model
    returns normally and keeps the agent orderly; it leaves no answer
    before its call number [k], and the answer [a] at that call. *)
Definition answers_at (llm : Model) (k : nat) (a : string) : Prop :=
  ∀ i parts m,
    well_tracked (self m) → truthy_opt (final_answer (notes m)) = false →
    ∃ m', llm i parts m = (Return tt, m')
          ∧ well_tracked (self m')
          ∧ (i < k → truthy_opt (final_answer (notes m')) = false)
          ∧ (i = k → final_answer (notes m') = Some a).

(** Called on an orderly agent without an answer in the state, the model
    returns normally, keeps the agent orderly and leaves no answer that
    is not empty. *)
Definition never_answers (llm : Model) : Prop :=
  ∀ i parts m,
    well_tracked (self m) → truthy_opt (final_answer (notes m)) = false →
    ∃ m', llm i parts m = (Return tt, m')
          ∧ well_tracked (self m')
          ∧ truthy_opt (final_answer (notes m')) = false.

End Facts.

(** ** Sample models and configurations *)

Module Cases.
Import Py Dom Annotator Toolbox Loop.

Definition with_notes (m : Machine) (n : Notes) : Machine :=
  {| self := self m; notes := n |}.

(** A model that looks at the page twice and then answers. *)
Definition answers_third : Model :=
  λ i _ m,
    (Return tt,
     if (i =? 2)%nat
     then with_notes m (tool_answer_user_query "The form is on the contact page." (notes m)).2
     else m).

(** A model that records the empty string as its answer at every call. *)
Definition answers_nothing : Model :=
  λ _ _ m, (Return tt, with_notes m (tool_answer_user_query EmptyString (notes m)).2).

Definition start : Machine :=
  {| self := agent (fresh Samples.page_items); notes := no_notes |}.

(** A machine that still holds the answer of an earlier run. *)
Definition answered_before : Machine :=
  {| self := agent (fresh Samples.page_items);
     notes := {| user_task := Some "an earlier task";
                 final_answer := Some "an earlier answer";
                 action_taken := None |} |}.

Definition defaults : Config :=
  {| allowed_tools := None; max_iterations := None |}.

Definition no_iterations : Config :=
  {| allowed_tools := None; max_iterations := Some 0%Z |}.

Definition click_only : Config :=
  {| allowed_tools := Some ["tool_click_web_element"; "delete_everything"];
     max_iterations := None |}.

Definition events : list Event :=
  [{| is_final_response := false; content := "thinking" |};
   {| is_final_response := true; content := "clicked" |};
   {| is_final_response := true; content := "late" |}].

End Cases.

Import Py Dom Annotator Spec.

(** ** Strings *)

Lemma app_string_nil (s : string) : EmptyString +:+ s = s.
Proof. reflexivity. Qed.

Lemma app_string_cons (c : ascii) (a b : string) :
  String c a +:+ b = String c (a +:+ b).
Proof. reflexivity. Qed.

Lemma app_string_assoc (a b c : string) : (a +:+ b) +:+ c = a +:+ b +:+ c.
Proof.
  induction a as [|x a IH]; [done |].
  rewrite !app_string_cons. by f_equal.
Qed.






Lemma truthy_true (s : string) : truthy s = true ↔ s ≠ EmptyString.
Proof. by destruct s. Qed.


(** ** The loop of [get_web_element_rect] *)

Lemma visited_shift (pre l : list RawItem) :
  omap (λ i, (λ item, (i, item)) <$> (pre ++ l) !! i) (seq (length pre) (length l))
  = zip (seq (length pre) (length l)) l.
Proof.
  revert pre. induction l as [|x l IH]; intros pre; [done |].
  cbn [length seq omap list_omap zip zip_with].
  rewrite list_lookup_middle by done. cbn.
  f_equal. specialize (IH (pre ++ [x])).
  rewrite <- app_assoc, length_app in IH. cbn in IH.
  by rewrite Nat.add_1_r in IH.
Qed.

Lemma visited_zip (items : list RawItem) :
  visited items = zip (seq 0 (length items)) items.
Proof. apply (visited_shift [] items). Qed.

Lemma visited_ids (items : list RawItem) :
  (visited items).*1 = seq 0 (length items).
Proof. rewrite visited_zip. apply fst_zip. by rewrite length_seq. Qed.

Lemma visited_items (items : list RawItem) :
  (visited items).*2 = items.
Proof. rewrite visited_zip. apply snd_zip. by rewrite length_seq. Qed.

Lemma visited_lookup (items : list RawItem) (i : nat) (item : RawItem) :
  (i, item) ∈ visited items ↔ items !! i = Some item.
Proof.
  unfold visited. rewrite list_elem_of_omap. split.
  - intros (j & _ & Hj). destruct (items !! j) eqn:E; simplify_eq/=. done.
  - intros Hi. exists i. split.
    + apply elem_of_seq. apply lookup_lt_Some in Hi. lia.
    + by rewrite Hi.
Qed.

Lemma loop_acc (items : list RawItem) (ids : list nat) (acc : list string) :
  foldl (loop_body items) acc ids
  = acc ++ omap (λ i, items !! i ≫= format_entry i) ids.
Proof.
  revert acc. induction ids as [|i ids IH]; intros acc; cbn [foldl].
  - by rewrite app_nil_r.
  - rewrite IH. unfold loop_body. cbn [omap list_omap].
    destruct (items !! i) as [item|]; cbn; [|done].
    destruct (format_entry i item); cbn; [|done].
    by rewrite <- app_assoc.
Qed.

Lemma format_lines_visited (items : list RawItem) :
  format_lines items = omap (λ p, format_entry p.1 p.2) (visited items).
Proof.
  unfold format_lines, visited. rewrite loop_acc. cbn [app].
  induction (seq 0 (length items)) as [|i ids IH]; [done |].
  cbn [omap list_omap]. destruct (items !! i) as [item|]; cbn; [|done].
  destruct (format_entry i item); cbn; by rewrite IH.
Qed.

Lemma elem_of_format_lines (items : list RawItem) (line : string) :
  line ∈ format_lines items
  ↔ ∃ i item, items !! i = Some item ∧ format_entry i item = Some line.
Proof.
  rewrite format_lines_visited, list_elem_of_omap. split.
  - intros ([i item] & Hin & Hline). apply visited_lookup in Hin. eauto.
  - intros (i & item & Hi & Hline). exists (i, item).
    by rewrite visited_lookup.
Qed.

(** Every line starts with the index of its element in brackets. *)
Lemma format_entry_index (i : nat) (item : RawItem) (line : string) :
  format_entry i item = Some line →
  ∃ rest, line = "[" +:+ pretty i +:+ "]: " +:+ rest.
Proof.
  unfold format_entry. intros H.
  repeat case_match; simplify_eq; rewrite ?app_string_cons, ?app_string_nil;
    eexists; reflexivity.
Qed.

(** C1.  One annotation pass returns as many markers as element handles;
    the loop gives the discovered elements the indices 0, 1, 2, ... once
    each, in the order of the raw element list, and builds the lines from
    these pairs; and every line of the formatted text carries the index
    of an element that sits at that position of the element handles. *)
Theorem annotation_pass_indices (fix_color : bool) (self : Agent) :
  let '((markers, element_handles, formatted_text), _) :=
    get_web_element_rect fix_color self in
  let items_raw := discovered (browser self) in
  length markers = length element_handles
  ∧ (visited items_raw).*1 = seq 0 (length element_handles)
  ∧ NoDup (visited items_raw).*1
  ∧ element <$> (visited items_raw).*2 = element_handles
  ∧ format_lines items_raw = omap (λ p, format_entry p.1 p.2) (visited items_raw)
  ∧ formatted_text = join tab (format_lines items_raw)
  ∧ ∀ line, line ∈ format_lines items_raw →
      ∃ i item rest,
        format_entry i item = Some line
        ∧ line = "[" +:+ pretty i +:+ "]: " +:+ rest
        ∧ i < length element_handles
        ∧ element_handles !! i = Some (element item).
Proof.
  unfold get_web_element_rect, label_script. cbn zeta.
  rewrite length_seq, length_fmap, visited_ids, visited_items.
  repeat split; [apply NoDup_seq | apply format_lines_visited |].
  intros line Hline.
  apply elem_of_format_lines in Hline as (i & item & Hi & Hentry).
  destruct (format_entry_index _ _ _ Hentry) as [rest Hrest].
  exists i, item, rest. repeat split; [done | done | |].
  - by apply lookup_lt_Some in Hi.
  - by rewrite list_lookup_fmap, Hi.
Qed.

(** ** The inclusion filter *)




(** The cases the specification lists for the filter. *)
Example filter_cases :
  format_entry 0 Samples.text_input = Some ("[0]: <input> " +:+ quoted EmptyString +:+ ";")
  ∧ format_entry 1 Samples.send_button = Some ("[1]: <button> " +:+ quoted "Send" +:+ ";")
  ∧ format_entry 2 Samples.contact_div = Some ("[2]: " +:+ quoted "Contact Us" +:+ ";")
  ∧ format_entry 3 Samples.submit_button
    = Some ("[3]: <button> " +:+ quoted "Submit" +:+ ", " +:+ quoted "submit-form" +:+ ";")
  ∧ format_entry 4 Samples.image_span = None
  ∧ format_entry 5 Samples.long_div = None
  ∧ format_entry 6 Samples.bare_div = None.
Proof. vm_compute. repeat split. Qed.

(** With text, the four lines of the code are the two of [text_line]. *)
Lemma format_entry_text (i : nat) (item : RawItem) :
  text item ≠ EmptyString →
  format_entry i item
  = if (String.length (text item) <? 200)%nat
       && negb (contains "<img" (text item) && contains "src=" (text item))
    then Some (text_line aria_adds i item) else None.
Proof.
  intros Htext. apply truthy_true in Htext.
  unfold format_entry, text_line, aria_adds, is_control_tag, composed_label,
    tagged_line, plain_line, quoted.
  rewrite Htext. cbn [negb andb].
  destruct (_ <? _)%nat; [|done]. cbn [andb].
  destruct (negb _); [|done].
  destruct (get_attribute (element item) "aria-label") as [a|];
    cbn [truthy_opt fmt_opt].
  - assert (bool_decide (Some a = Some (text item)) = bool_decide (a = text item)) as ->.
    { apply bool_decide_ext. naive_solver. }
    destruct (truthy a && _); destruct (bool_decide (_ ∈ _));
      by rewrite !app_string_assoc.
  - cbn [andb]. destruct (bool_decide (_ ∈ _)); by rewrite !app_string_assoc.
Qed.



(** C4, as stated, fails: an aria-label that is present but empty differs
    from the text, and yet is not appended. *)
Lemma blank_aria_not_appended :
  text Samples.blank_aria_button ≠ EmptyString
  ∧ ∃ line, format_entry 0 Samples.blank_aria_button = Some line
            ∧ line ≠ text_line aria_differs 0 Samples.blank_aria_button.
Proof.
  split; [discriminate |].
  eexists. split; [vm_compute; reflexivity |]. vm_compute. discriminate.
Qed.

(** C4, amended.  An element with visible text that passes the filter has
    the line of its text, with the aria-label after a comma exactly when
    the aria-label is present, not empty and different from the text; the
    line shows the tag when the tag name is button, input or textarea,
    and no tag otherwise. *)
Theorem text_line_composition (items : list RawItem) (i : nat) (item : RawItem)
    (line : string) :
  items !! i = Some item →
  text item ≠ EmptyString →
  format_entry i item = Some line →
  line ∈ format_lines items
  ∧ line = text_line aria_adds i item
  ∧ (tag_name (element item) ∈ ["button"; "input"; "textarea"] →
     line = tagged_line i (tag_name (element item))
              (composed_label (aria_adds item) (text item)
                 (get_attribute (element item) "aria-label")))
  ∧ (tag_name (element item) ∉ ["button"; "input"; "textarea"] →
     line = plain_line i
              (composed_label (aria_adds item) (text item)
                 (get_attribute (element item) "aria-label"))).
Proof.
  intros Hi Htext Hline. split.
  { apply elem_of_format_lines. eauto. }
  rewrite format_entry_text in Hline by done.
  case_match; [|done]. injection Hline as <-.
  split; [done |]. unfold text_line, is_control_tag.
  split; intros Htag; case_bool_decide; done.
Qed.

(** The button Submit with the aria-label submit-form. *)
Lemma text_line_composition_witness :
  let item := Samples.submit_button in
  let line := "[3]: <button> " +:+ quoted "Submit" +:+ ", "
              +:+ quoted "submit-form" +:+ ";" in
  Samples.page_items !! 3 = Some item
  ∧ text item ≠ EmptyString
  ∧ format_entry 3 item = Some line
  ∧ line ∈ format_lines Samples.page_items
  ∧ line = text_line aria_adds 3 item
  ∧ (tag_name (element item) ∈ ["button"; "input"; "textarea"] →
     line = tagged_line 3 (tag_name (element item))
              (composed_label (aria_adds item) (text item)
                 (get_attribute (element item) "aria-label")))
  ∧ (tag_name (element item) ∉ ["button"; "input"; "textarea"] →
     line = plain_line 3
              (composed_label (aria_adds item) (text item)
                 (get_attribute (element item) "aria-label"))).
Proof.
  cbv zeta.
  split; [reflexivity |]. split; [discriminate |].
  split; [vm_compute; reflexivity |].
  apply (text_line_composition Samples.page_items 3 Samples.submit_button);
    [reflexivity | discriminate | vm_compute; reflexivity].
Defined.

(** ** Removing markers from the page *)

Lemma removeChild_None (m : Node) (body : list Node) :
  removeChild m body = None ↔ m ∉ body.
Proof.
  induction body as [|x body IH]; cbn.
  - split; [intros _; apply not_elem_of_nil | done].
  - rewrite not_elem_of_cons. case_decide as Hx.
    + split; [done | intros [Hne _]; congruence].
    + rewrite fmap_None, IH. split; [intros ?; split; congruence | tauto].
Qed.

Lemma removeChild_Some (m : Node) (body body' : list Node) :
  NoDup body →
  removeChild m body = Some body' →
  NoDup body' ∧ ∀ x, x ∈ body' ↔ x ∈ body ∧ x ≠ m.
Proof.
  revert body'. induction body as [|y body IH]; intros body' Hnd Hrm; [done |].
  apply NoDup_cons in Hnd as [Hy Hnd]. cbn in Hrm. case_decide as Hym.
  - injection Hrm as <-. subst y. split; [done |].
    intros x. rewrite elem_of_cons. split.
    + intros Hx. split; [by right | congruence].
    + intros [[?|?] ?]; done.
  - apply fmap_Some in Hrm as (b & Hb & ->).
    destruct (IH b Hnd Hb) as [Hndb Hmem]. split.
    + apply NoDup_cons. split; [|done]. rewrite Hmem. tauto.
    + intros x. rewrite !elem_of_cons, Hmem. split.
      * intros [->|[? ?]]; split; auto.
      * intros [[->|?] ?]; auto.
Qed.

(** The markers that are attached are removed one after the other. *)
Lemma js_del_script_attached (pre post body : list Node) :
  NoDup body → NoDup pre → (∀ x, x ∈ pre → x ∈ body) →
  ∃ body', js_del_script (pre ++ post) body = js_del_script post body'
           ∧ NoDup body'
           ∧ ∀ x, x ∈ body' ↔ x ∈ body ∧ x ∉ pre.
Proof.
  revert body. induction pre as [|m pre IH]; intros body Hnd Hpre Hin.
  - exists body. split; [done |]. split; [done |].
    intros x. split; [intros ?; split; [done | apply not_elem_of_nil] | tauto].
  - apply NoDup_cons in Hpre as [Hm Hpre].
    destruct (removeChild m body) as [b|] eqn:Hrm.
    + destruct (removeChild_Some _ _ _ Hnd Hrm) as [Hndb Hmem].
      destruct (IH b Hndb Hpre) as (body' & Hrun & Hnd' & Hmem').
      { intros x Hx. rewrite Hmem. split; [apply Hin; by right | congruence]. }
      exists body'. cbn. rewrite Hrm. split; [done |]. split; [done |].
      intros x. rewrite Hmem', Hmem, not_elem_of_cons. tauto.
    + apply removeChild_None in Hrm. destruct Hrm. apply Hin. by left.
Qed.

Lemma execute_del_script_attached (args body : list Node) :
  (∀ m, m ∈ args → m ∈ body) →
  execute_del_script args body = js_del_script args body.
Proof.
  intros Hall. unfold execute_del_script.
  rewrite bool_decide_true; [done |]. by apply Forall_forall.
Qed.

Lemma execute_del_script_stale (args body : list Node) (m : Node) :
  m ∈ args → m ∉ body →
  execute_del_script args body
  = (Some (StaleElementReferenceException "stale element reference"), body).
Proof.
  intros Hm Hout. unfold execute_del_script.
  rewrite bool_decide_false; [done |].
  intros Hall. apply Hout. by eapply Forall_forall in Hall.
Qed.

(** State of the agent after [del_web_element_rect], by the result of the
    removal script. *)
Lemma del_web_element_rect_eq (self : Agent) (ms : list Node) :
  rects self = Some ms →
  del_web_element_rect self
  = let r := execute_del_script ms (body_markers (browser self)) in
    let page := {| discovered := discovered (browser self);
                   body_markers := r.2;
                   next_node := next_node (browser self) |} in
    match r.1 with
    | None => (Return tt, {| browser := page; rects := None;
                             state := state self; image_part := image_part self |})
    | Some e => (Raise e, {| browser := page; rects := Some ms;
                             state := state self; image_part := image_part self |})
    end.
Proof.
  intros Hr. unfold del_web_element_rect. rewrite Hr.
  by destruct (execute_del_script _ _) as [[e|] body].
Qed.

Lemma del_untracked (self : Agent) :
  rects self = None → del_web_element_rect self = (Return tt, self).
Proof. intros Hr. unfold del_web_element_rect. by rewrite Hr. Qed.

(** With every tracked marker attached, the call returns, the tracked
    list is cleared and the tracked markers are off the page. *)
Lemma del_well_tracked (self : Agent) :
  well_tracked self →
  ∃ self', del_web_element_rect self = (Return tt, self')
           ∧ rects self' = None
           ∧ well_tracked self'
           ∧ next_node (browser self') = next_node (browser self)
           ∧ discovered (browser self') = discovered (browser self)
           ∧ ∀ x, x ∈ body_markers (browser self')
                  ↔ x ∈ body_markers (browser self)
                    ∧ ∀ ms, rects self = Some ms → x ∉ ms.
Proof.
  intros (Hnd & Hlt & Htr). destruct (rects self) as [ms|] eqn:Hr.
  - destruct (Htr ms eq_refl) as [Hms Hsub].
    destruct (js_del_script_attached ms [] _ Hnd Hms Hsub)
      as (body' & Hrun & Hnd' & Hmem).
    rewrite app_nil_r in Hrun. cbn in Hrun.
    eexists. rewrite (del_web_element_rect_eq _ ms Hr).
    rewrite (execute_del_script_attached _ _ Hsub), Hrun. cbn.
    split; [done |]. split; [done |]. split.
    { split; [done |]. split; [|done]. intros m Hm. apply Hlt. by apply Hmem. }
    split; [done |]. split; [done |].
    intros x. rewrite Hmem. split.
    + intros [? ?]. split; [done |]. by intros ? [= <-].
    + intros [? Hx]. split; [done |]. by apply Hx.
  - exists self. rewrite del_untracked by done.
    split; [done |]. split; [done |]. split.
    { split; [done |]. split; [done |]. intros ms. by rewrite Hr. }
    split; [done |]. split; [done |].
    intros x. split; [intros ?; split; [done |] | tauto]. done.
Qed.

Lemma annotate_well_tracked (fix_color : bool) (self : Agent) :
  well_tracked self → well_tracked (get_web_element_rect fix_color self).2.
Proof.
  intros (Hnd & Hlt & _). unfold get_web_element_rect, label_script, well_tracked.
  cbn. split; [|split].
  - apply NoDup_app. split; [done |]. split; [|apply NoDup_seq].
    intros x Hx Hseq. apply Hlt in Hx. apply elem_of_seq in Hseq. lia.
  - intros m. rewrite elem_of_app, elem_of_seq. intros [Hm| Hm]; [apply Hlt in Hm|]; cbn in *; lia.
  - intros ms [= <-]. split; [apply NoDup_seq |].
    intros m Hm. apply elem_of_app. by right.
Qed.

Lemma fresh_well_tracked (items : list RawItem) : well_tracked (agent (fresh items)).
Proof.
  split; [apply NoDup_nil_2 |]. split; [by intros m Hm%elem_of_nil | done].
Qed.

Lemma call_step_annotate (t : Trace) (fix_color : bool) :
  call_step t (Annotate fix_color)
  = {| agent := (get_web_element_rect fix_color (agent t)).2;
       last_pass := Some (get_web_element_rect fix_color (agent t)).1.1.1 |}.
Proof.
  unfold call_step.
  by destruct (get_web_element_rect fix_color (agent t)) as [[[? ?] ?] ?].
Qed.

Lemma call_step_well_tracked (t : Trace) (c : Call) :
  well_tracked (agent t) → well_tracked (agent (call_step t c)).
Proof.
  intros Ht. destruct c as [fc|].
  - rewrite call_step_annotate. by apply annotate_well_tracked.
  - cbn. by destruct (del_well_tracked _ Ht) as (self' & -> & _ & H & _).
Qed.

Lemma run_calls_well_tracked (cs : list Call) (t : Trace) :
  well_tracked (agent t) → well_tracked (agent (run_calls cs t)).
Proof.
  revert t. induction cs as [|c cs IH]; intros t Ht; [done |].
  apply IH. by apply call_step_well_tracked.
Qed.

(** ** The text handed to the decision loop *)

Lemma del_keeps_state (self : Agent) :
  state (del_web_element_rect self).2 = state self.
Proof.
  unfold del_web_element_rect. destruct (rects self) as [ms|]; [|done].
  by destruct (execute_del_script _ _) as [[e|] body].
Qed.

Lemma get_current_webpage_state_text (self : Agent) :
  well_tracked self →
  ∃ self',
    get_current_webpage_state self
    = (Return (join tab (chars (join tab (format_lines (discovered (browser self)))))),
       self')
    ∧ Session.formatted_ele_text (state self')
      = Some (join tab (format_lines (discovered (browser self)))).
Proof.
  intros Hwt. apply (annotate_well_tracked true) in Hwt.
  unfold get_current_webpage_state.
  destruct (get_web_element_rect true self) as [[[rs els] txt] self1] eqn:Hget.
  assert (txt = join tab (format_lines (discovered (browser self)))) as ->.
  { unfold get_web_element_rect, label_script in Hget. by injection Hget as _ _ <- _. }
  cbn [snd] in Hwt.
  match goal with |- context [del_web_element_rect ?a] => set (self2 := a) end.
  assert (well_tracked self2) as Hwt2 by done.
  pose proof (del_keeps_state self2) as Hst.
  destruct (del_well_tracked self2 Hwt2) as (self3 & Hdel & _).
  rewrite Hdel in Hst |- *. exists self3. split; [done |].
  cbn [snd] in Hst. by rewrite Hst.
Qed.

(** C5.  On a page with two text elements the annotator joins the two
    lines with one tab and stores that string, but
    [get_current_webpage_state] joins the characters of that string
    again: what it returns has a tab after every character, and is not
    the lines joined by single tabs. *)
Theorem webpage_state_text_joined_twice :
  let items := [Samples.div_hi; Samples.contact_div] in
  let lines := ["[0]: " +:+ quoted "Hi" +:+ ";";
                "[1]: " +:+ quoted "Contact Us" +:+ ";"] in
  format_lines items = lines
  ∧ (get_web_element_rect true (agent (fresh items))).1.2 = join tab lines
  ∧ (get_current_webpage_state (agent (fresh items))).1
    = Return (join tab (chars (join tab lines)))
  ∧ (get_current_webpage_state (agent (fresh items))).1
    ≠ Return (join tab lines).
Proof. cbv zeta. vm_compute. repeat split; discriminate. Qed.

(** ** Markers on the page *)

Lemma in_step_overlay_ok (pending : bool) (t : Trace) :
  in_step pending t → overlay_ok t.
Proof.
  destruct pending; cbn.
  - intros (ms & _ & Hlast & Hbody). right. exists ms. by rewrite Hbody.
  - intros [_ Hbody]. by left.
Qed.

Lemma alternating_overlay_ok (cs : list Call) (pending : bool) (t : Trace) :
  well_tracked (agent t) → in_step pending t →
  alternating pending cs = true → overlay_ok (run_calls cs t).
Proof.
  revert pending t. induction cs as [|c cs IH]; intros pending t Hwt Hinv Halt.
  { by apply (in_step_overlay_ok pending). }
  pose proof (call_step_well_tracked t c Hwt) as Hwt'.
  destruct c as [fc|]; cbn in Halt.
  - apply andb_true_iff in Halt as [Hp Halt]. destruct pending; [done |].
    destruct Hinv as [Hr Hbody].
    apply (IH true (call_step t (Annotate fc))); [done | | done].
    rewrite call_step_annotate. unfold get_web_element_rect, label_script. cbn.
    eexists. split; [done |]. split; [done |]. by rewrite Hbody.
  - apply (IH false (call_step t Clear)); [done | | done].
    cbn. destruct (del_well_tracked _ Hwt) as (self' & -> & Hr' & _ & _ & _ & Hmem).
    split; [done |]. cbn. destruct pending.
    + destruct Hinv as (ms & Hr & _ & Hbody).
      apply elem_of_nil_inv. intros x Hx. apply Hmem in Hx as [Hx Hnot].
      apply (Hnot ms Hr). by rewrite <- Hbody.
    + destruct Hinv as [Hr Hbody].
      apply elem_of_nil_inv. intros x Hx. apply Hmem in Hx as [Hx _].
      rewrite Hbody in Hx. by apply elem_of_nil in Hx.
Qed.

(** C6, as stated, fails: a second annotation pass without a clear in
    between leaves the markers of the first pass on the page. *)
Lemma stale_markers_after_two_passes :
  ¬ overlay_ok (run_calls [Annotate true; Annotate true] (fresh [Samples.div_hi])).
Proof.
  intros [Hnil | (ms & Hlast & Hmem)].
  - vm_compute in Hnil. discriminate.
  - vm_compute in Hlast. injection Hlast as <-.
    assert (0 ∈ [1]) as H.
    { apply Hmem. vm_compute. by left. }
    apply list_elem_of_singleton in H. discriminate.
Qed.

(** C6, amended.  When every annotation pass is started only after the
    markers of the previous one were cleared, the markers on the page are
    at any time none or exactly those the most recent pass returned. *)
Theorem overlay_of_alternating_calls (items : list RawItem) (cs : list Call) :
  alternating false cs = true →
  overlay_ok (run_calls cs (fresh items)).
Proof.
  apply alternating_overlay_ok; [apply fresh_well_tracked | done].
Qed.

(** Annotate, clear, annotate with random colours. *)
Lemma overlay_of_alternating_calls_witness :
  alternating false [Annotate true; Clear; Annotate false] = true
  ∧ overlay_ok (run_calls [Annotate true; Clear; Annotate false]
                  (fresh Samples.page_items)).
Proof.
  split; [reflexivity |].
  apply (overlay_of_alternating_calls Samples.page_items
           [Annotate true; Clear; Annotate false]).
  reflexivity.
Defined.

(** C7.  In whatever state calls of the annotator have left the agent,
    [del_web_element_rect] returns with the tracked marker list cleared,
    and a second call returns with the agent, its page included, exactly
    as the first call left it. *)
Theorem clear_twice_is_noop (items : list RawItem) (cs : list Call) :
  let self := agent (run_calls cs (fresh items)) in
  ∃ self1,
    del_web_element_rect self = (Return tt, self1)
    ∧ rects self1 = None
    ∧ del_web_element_rect self1 = (Return tt, self1).
Proof.
  cbv zeta.
  destruct (del_well_tracked (agent (run_calls cs (fresh items))))
    as (self1 & Hdel & Hr & _).
  { apply run_calls_well_tracked, fresh_well_tracked. }
  exists self1. split; [done |]. split; [done |]. by apply del_untracked.
Qed.

(** C8, as stated, fails: with the second of three tracked markers already
    off the page the call raises, the first and the third marker stay on
    the page and the tracked list is kept. *)
Lemma detached_marker_aborts_removal :
  ¬ best_effort Samples.tampered
  ∧ ∃ e self', del_web_element_rect Samples.tampered = (Raise e, self')
               ∧ body_markers (browser self') = [0; 2]
               ∧ rects self' = Some [0; 1; 2].
Proof.
  split.
  - intros (self' & Hdel & _). vm_compute in Hdel. discriminate.
  - eexists _, _. split; [vm_compute; reflexivity |]. by split.
Qed.

(** C8, amended.  [del_web_element_rect] removes the tracked markers all
    or not at all.  When all of them are attached it returns, they are
    off the page and the tracked list is cleared.  When one of them was
    already detached, the driver refuses it as a stale element before the
    script runs: the call raises, no marker is removed and the tracked
    list is kept. *)
Theorem del_removes_all_or_nothing (self : Agent) (ms : list Node) :
  rects self = Some ms →
  NoDup (body_markers (browser self)) →
  NoDup ms →
  ∃ out self',
    del_web_element_rect self = (out, self')
    ∧ ((∀ m, m ∈ ms → m ∈ body_markers (browser self)) →
       out = Return tt
       ∧ rects self' = None
       ∧ ∀ x, x ∈ body_markers (browser self')
              ↔ x ∈ body_markers (browser self) ∧ x ∉ ms)
    ∧ ((∃ m, m ∈ ms ∧ m ∉ body_markers (browser self)) →
       out = Raise (StaleElementReferenceException "stale element reference")
       ∧ rects self' = Some ms
       ∧ body_markers (browser self') = body_markers (browser self)).
Proof.
  intros Hr Hnd Hms. rewrite (del_web_element_rect_eq _ _ Hr).
  destruct (decide (Forall (λ m, m ∈ body_markers (browser self)) ms))
    as [Hall|Hstale].
  - assert (∀ m, m ∈ ms → m ∈ body_markers (browser self)) as Hsub.
    { intros m Hm. by eapply Forall_forall in Hall. }
    destruct (js_del_script_attached ms [] _ Hnd Hms Hsub)
      as (body' & Hrun & _ & Hmem).
    rewrite app_nil_r in Hrun. cbn in Hrun.
    rewrite (execute_del_script_attached _ _ Hsub), Hrun. cbn.
    eexists _, _. split; [done |]. split; [done |].
    intros (m & Hm & Hout). destruct Hout. by apply Hsub.
  - apply not_Forall_Exists in Hstale; [|intros m; apply _].
    apply Exists_exists in Hstale as (m & Hm & Hout).
    rewrite (execute_del_script_stale _ _ m Hm Hout). cbn.
    eexists _, _. split; [done |]. split; [|done].
    intros Hsub. destruct Hout. by apply Hsub.
Qed.

(** Three tracked markers, the second one already detached. *)
Lemma del_removes_all_or_nothing_witness :
  rects Samples.tampered = Some [0; 1; 2]
  ∧ NoDup (body_markers (browser Samples.tampered))
  ∧ ∃ out self',
      del_web_element_rect Samples.tampered = (out, self')
      ∧ ((∃ m, m ∈ [0; 1; 2] ∧ m ∉ body_markers (browser Samples.tampered)) →
         out = Raise (StaleElementReferenceException "stale element reference")
         ∧ rects self' = Some [0; 1; 2]
         ∧ body_markers (browser self') = body_markers (browser Samples.tampered)).
Proof.
  assert (NoDup (body_markers (browser Samples.tampered))) as Hnd.
  { apply (bool_decide_unpack _). vm_compute. exact I. }
  assert (NoDup [0; 1; 2]) as Hms.
  { apply (bool_decide_unpack _). vm_compute. exact I. }
  split; [reflexivity |]. split; [exact Hnd |].
  destruct (del_removes_all_or_nothing Samples.tampered [0; 1; 2] eq_refl Hnd Hms)
    as (out & self' & Hdel & _ & Hstale).
  exists out, self'. split; [exact Hdel | exact Hstale].
Defined.

Import Tools.

(** ** The click tool *)

(** [l[i]] is an element exactly when [-len(l) <= i < len(l)]. *)
Lemma index_is_Some {A} (l : list A) (i : Z) :
  is_Some (index l i) ↔ (- Z.of_nat (length l) ≤ i < Z.of_nat (length l))%Z.
Proof.
  unfold index. destruct (Z.leb_spec 0 i); [|destruct (Z.leb_spec (- Z.of_nat (length l)) i)].
  - rewrite lookup_lt_is_Some. lia.
  - rewrite lookup_lt_is_Some. lia.
  - split; [by intros [? ?] | lia].
Qed.

(** C9.  With two handles handed out and the element number -1, which is
    none of 0 and 1, the tool clicks the last element and reports
    success. *)
Theorem negative_number_clicks_last_element :
  let d : gmap string val :=
    {[ "status" := VInt 200;
       "message" := VStr "Clicked on web element number -1." ]} in
  not_handed_out (-1) [Samples.link 10; Samples.link 11]
  ∧ tool_click_web_element (-1) Samples.two_handles Samples.idle
    = (Return d, {| clicked := [11]; click_fault := ∅; slept := 2 |})
  ∧ is_ok d.
Proof.
  cbv zeta. split; [left; lia |].
  split; [vm_compute; reflexivity |].
  split; vm_compute; reflexivity.
Qed.

(** The range check of the tool, for numbers that are too large: an error
    is returned and nothing is clicked. *)
Lemma number_too_large_is_refused (n : Z) (ctx : Session.State) (w : World) :
  is_Some (Session.webdriver ctx) →
  (Z.of_nat (length (default [] (Session.web_elements ctx))) ≤ n)%Z →
  tool_click_web_element n ctx w
  = (Return {[ "error" := VStr ("Web element number " +:+ pretty n
                                +:+ " is out of range.") ]}, w).
Proof.
  intros Hb Hn. unfold tool_click_web_element.
  rewrite bool_decide_true by done. cbn [negb].
  apply Z.leb_le in Hn. rewrite Hn. by rewrite orb_true_r.
Qed.

(** The tool always returns a dictionary and never raises.  Without a
    browser in the context, without handles, with a number at or beyond
    the number of handles or below minus that number, and with a click
    that raises, the dictionary is an error dictionary and nothing was
    clicked; with a click that succeeds it is the dictionary with status
    200.  The numbers from minus the number of handles to -1 are not
    among the refused ones. *)
Theorem click_tool_always_returns (n : Z) (ctx : Session.State) (w : World) :
  ∃ d w',
    tool_click_web_element n ctx w = (Return d, w')
    ∧ (is_error d ∨ is_ok d)
    ∧ (Session.webdriver ctx = None →
       d = {[ "error" := VStr "No browser instance found in tool context." ]}
       ∧ w' = w)
    ∧ (truthy_list (Session.web_elements ctx) = false
       ∨ (Z.of_nat (length (default [] (Session.web_elements ctx))) ≤ n)%Z
       ∨ (n < - Z.of_nat (length (default [] (Session.web_elements ctx))))%Z →
       is_error d ∧ w' = w)
    ∧ (∀ e,
         is_Some (Session.webdriver ctx) →
         (n < Z.of_nat (length (default [] (Session.web_elements ctx))))%Z →
         index (default [] (Session.web_elements ctx)) n = Some e →
         match click e w with
         | (Raise ex, w1) => d = {[ "error" := VStr (str_exn ex) ]} ∧ w' = w1
         | (Return _, w1) => is_ok d ∧ w' = sleep 2 w1
         end).
Proof.
  unfold tool_click_web_element.
  destruct (Session.webdriver ctx) as [b|] eqn:Hb; cycle 1.
  { rewrite bool_decide_false by (by intros [? ?]). cbn [negb].
    eexists _, _. split; [done |]. split; [left; by eexists |].
    split; [done |]. split; [intros _; split; [by eexists | done] |].
    by intros e [? ?]. }
  rewrite bool_decide_true by done. cbn [negb].
  set (els := default [] (Session.web_elements ctx)).
  destruct (truthy_list (Session.web_elements ctx)) eqn:Hels; cycle 1.
  { cbn [negb orb]. eexists _, _. split; [done |]. split; [left; by eexists |].
    split; [done |]. split; [intros _; split; [by eexists | done] |].
    intros e _ Hlt He. apply mk_is_Some, index_is_Some in He.
    assert (els = []) as Hnil.
    { unfold els. by destruct (Session.web_elements ctx) as [[|? ?]|]. }
    rewrite Hnil in He. cbn in He. lia. }
  cbn [negb orb]. destruct (Z.leb_spec (Z.of_nat (length els)) n) as [Hge|Hlt].
  { eexists _, _. split; [done |]. split; [left; by eexists |].
    split; [done |]. split; [intros _; split; [by eexists | done] |].
    intros e _ Hlt. lia. }
  unfold click_body. destruct (index els n) as [e|] eqn:He.
  - assert (¬ (n < - Z.of_nat (length els))%Z) as Hlow.
    { apply mk_is_Some, index_is_Some in He. lia. }
    unfold click. destruct (click_fault w !! node e) as [msg|] eqn:Hf.
    + eexists _, _. split; [done |]. split; [left; by eexists |].
      split; [done |]. split; [intros [?|[?|?]]; [done | lia | lia] |].
      intros e' _ _ [= <-]. by rewrite Hf.
    + eexists _, _. split; [done |].
      assert (is_ok ({[ "status" := VInt 200;
                        "message" := VStr ("Clicked on web element number "
                                           +:+ pretty n +:+ ".") ]}
                     : gmap string val)) as Hok.
      { split; by simplify_map_eq. }
      split; [by right |].
      split; [done |]. split; [intros [?|[?|?]]; [done | lia | lia] |].
      intros e' _ _ [= <-]. by rewrite Hf.
  - eexists _, _. split; [done |]. split; [left; by eexists |].
    split; [done |]. split; [intros _; split; [by eexists | done] |].
    by intros e _ _.
Qed.

(** C10.  With two handles handed out and the element number -2, which
    is out of range, what the tool returns is not an error dictionary:
    it clicks the first handle and returns the dictionary with status
    200. *)
Theorem out_of_range_number_not_converted :
  let d : gmap string val :=
    {[ "status" := VInt 200;
       "message" := VStr "Clicked on web element number -2." ]} in
  not_handed_out (-2) [Samples.link 10; Samples.link 11]
  ∧ tool_click_web_element (-2) Samples.two_handles Samples.idle
    = (Return d, {| clicked := [10]; click_fault := ∅; slept := 2 |})
  ∧ ¬ is_error d.
Proof.
  cbv zeta. split; [left; lia |].
  split; [vm_compute; reflexivity |].
  intros [msg Hd]. apply (f_equal (λ m : gmap string val, m !! "status")) in Hd.
  vm_compute in Hd. discriminate.
Qed.

Import Toolbox Loop Facts.

(** ** Order and distinctness of the lines *)

Lemma format_lines_omap (items : list RawItem) :
  format_lines items
  = omap (λ i, items !! i ≫= format_entry i) (seq 0 (length items)).
Proof. unfold format_lines. by rewrite loop_acc. Qed.

Lemma omap_filter_Forall2 {A B} (f : A → option B) (l : list A) :
  Forall2 (λ x y, f x = Some y) (filter (λ x, is_Some (f x)) l) (omap f l).
Proof.
  induction l as [|x l IH]; [constructor |].
  rewrite filter_cons. cbn [omap list_omap].
  destruct (decide (is_Some (f x))) as [[y Hy]|Hn].
  - rewrite Hy. cbn. by constructor.
  - destruct (f x) as [y|] eqn:Hx; [by destruct Hn |]. done.
Qed.

Lemma seq_sorted (a n : nat) : StronglySorted lt (seq a n).
Proof.
  revert a. induction n as [|n IH]; intros a; cbn; constructor; [apply IH |].
  apply Forall_forall. intros x Hx%elem_of_seq. lia.
Qed.

Lemma filter_sorted {A} (R : relation A) (P : A → Prop) `{!∀ x, Decision (P x)}
    (l : list A) :
  StronglySorted R l → StronglySorted R (filter P l).
Proof.
  induction 1 as [|x l Hl IH Hx]; [constructor |].
  rewrite filter_cons. case_decide; [|done].
  constructor; [done |]. apply Forall_forall.
  intros y [_ Hy]%list_elem_of_filter. by eapply Forall_forall in Hx.
Qed.

Lemma omap_length_le {A B} (f : A → option B) (l : list A) :
  length (omap f l) ≤ length l.
Proof.
  induction l as [|x l IH]; [done |].
  cbn [omap list_omap]. destruct (f x); cbn; lia.
Qed.

(** X1.  The formatted text has one line for each element that passes
    the filter and none else, in the order of the elements: the indices
    of its lines increase strictly, so no element is listed twice, and
    there are no more lines than elements. *)
Theorem format_lines_in_element_order (items : list RawItem) :
  Forall2 (λ i line, ∃ item, items !! i = Some item ∧ format_entry i item = Some line)
    (line_ids items) (format_lines items)
  ∧ StronglySorted lt (line_ids items)
  ∧ length (format_lines items) ≤ length items.
Proof.
  split; [|split].
  - rewrite format_lines_omap. unfold line_ids, has_line.
    eapply Forall2_impl; [apply omap_filter_Forall2 |].
    intros i line Hline. cbn in Hline.
    destruct (items !! i) as [item|]; [|done]. by exists item.
  - unfold line_ids. apply filter_sorted, seq_sorted.
  - rewrite format_lines_omap.
    etrans; [apply omap_length_le |]. by rewrite length_seq.
Qed.

Lemma pretty_N_char_digit (x : N) : is_digit (pretty_N_char x) = true.
Proof. unfold pretty_N_char. by repeat case_match. Qed.

Lemma pretty_N_go_digits (x : N) (s : string) :
  all_digits s = true → all_digits (pretty_N_go x s) = true.
Proof.
  revert s. induction (N.lt_wf_0 x) as [x _ IH]; intros s Hs.
  assert (x = 0 ∨ 0 < x)%N as [->|Hx] by lia.
  - by rewrite pretty_N_go_0.
  - rewrite pretty_N_go_step by done. apply IH.
    + by apply N.div_lt.
    + cbn [all_digits]. by rewrite pretty_N_char_digit.
Qed.

Lemma pretty_nat_digits (n : nat) : all_digits (pretty n) = true.
Proof.
  unfold pretty, pretty_nat, pretty, pretty_N. case_decide; [done |].
  by apply pretty_N_go_digits.
Qed.

(** A numeral ends where the closing bracket stands. *)
Lemma digits_bracket_inj (s1 s2 r1 r2 : string) :
  all_digits s1 = true → all_digits s2 = true →
  s1 +:+ String "]" r1 = s2 +:+ String "]" r2 → s1 = s2.
Proof.
  revert s2. induction s1 as [|c s1 IH]; intros [|d s2] H1 H2 Heq;
    rewrite ?app_string_cons, ?app_string_nil in Heq.
  - done.
  - injection Heq as <- _. cbn in H2. done.
  - injection Heq as -> _. cbn in H1. done.
  - injection Heq as -> Heq. f_equal.
    cbn [all_digits] in H1, H2.
    apply andb_true_iff in H1 as [_ H1]. apply andb_true_iff in H2 as [_ H2].
    by apply (IH s2).
Qed.

Lemma format_entry_index_inj (i j : nat) (a b : RawItem) (line : string) :
  format_entry i a = Some line → format_entry j b = Some line → i = j.
Proof.
  intros [r1 H1]%format_entry_index [r2 H2]%format_entry_index.
  rewrite H1 in H2. rewrite !app_string_cons, !app_string_nil in H2.
  injection H2 as H2.
  apply (inj pretty).
  eapply digits_bracket_inj; [apply pretty_nat_digits.. |].
  exact H2.
Qed.

Lemma omap_NoDup {A B} (f : A → option B) (l : list A) :
  (∀ x y z, f x = Some z → f y = Some z → x = y) →
  NoDup l → NoDup (omap f l).
Proof.
  intros Hinj. induction 1 as [|x l Hx Hl IH]; [constructor |].
  cbn [omap list_omap]. destruct (f x) as [z|] eqn:Hz; cbn; [|done].
  constructor; [|done]. rewrite list_elem_of_omap.
  intros (y & Hy & Hfy). by rewrite (Hinj x y z Hz Hfy) in Hx.
Qed.

(** X2.  A line of the formatted text names one element only: two
    elements never produce the same line, whatever their texts and
    labels, because the index in front differs; so the lines of a pass
    are pairwise distinct. *)
Theorem format_lines_distinct (items : list RawItem) :
  NoDup (format_lines items)
  ∧ ∀ i j a b line,
      items !! i = Some a → items !! j = Some b →
      format_entry i a = Some line → format_entry j b = Some line →
      i = j ∧ a = b.
Proof.
  split.
  - rewrite format_lines_omap. apply omap_NoDup; [|apply NoDup_seq].
    intros i j line Hi Hj.
    destruct (items !! i) as [a|]; [|done].
    destruct (items !! j) as [b|]; [|done].
    by apply (format_entry_index_inj i j a b line).
  - intros i j a b line Hi Hj Ha Hb.
    assert (i = j) as -> by by apply (format_entry_index_inj i j a b line).
    split; [done | congruence].
Qed.

(** ** What marker removal touches *)

Lemma removeChild_frame (m : Node) (body body' : list Node) :
  removeChild m body = Some body' →
  (∀ x, x ∈ body' → x ∈ body) ∧ (∀ x, x ∈ body → x ≠ m → x ∈ body').
Proof.
  revert body'. induction body as [|y body IH]; intros body' Hrm; [done |].
  cbn in Hrm. case_decide as Hy.
  - injection Hrm as <-. subst y. split.
    + intros x Hx. by right.
    + intros x [->|Hx]%elem_of_cons Hne; done.
  - apply fmap_Some in Hrm as (b & Hb & ->).
    destruct (IH b Hb) as [Hsub Hkeep]. split.
    + intros x [->|Hx]%elem_of_cons; [by left | right; by apply Hsub].
    + intros x [->|Hx]%elem_of_cons Hne; [by left | right; by apply Hkeep].
Qed.

Lemma js_del_script_frame (ms body : list Node) :
  (∀ x, x ∈ (js_del_script ms body).2 → x ∈ body)
  ∧ (∀ x, x ∈ body → x ∉ ms → x ∈ (js_del_script ms body).2).
Proof.
  revert body. induction ms as [|m ms IH]; intros body; [done |].
  cbn. destruct (removeChild m body) as [b|] eqn:Hrm; [|cbn; tauto].
  destruct (removeChild_frame _ _ _ Hrm) as [Hsub Hkeep].
  destruct (IH b) as [Hsub' Hkeep']. split.
  - intros x Hx. by apply Hsub, Hsub'.
  - intros x Hx [Hne Hms]%not_elem_of_cons. apply Hkeep'; [|done]. by apply Hkeep.
Qed.

Lemma execute_del_script_frame (ms body : list Node) :
  (∀ x, x ∈ (execute_del_script ms body).2 → x ∈ body)
  ∧ (∀ x, x ∈ body → x ∉ ms → x ∈ (execute_del_script ms body).2).
Proof.
  unfold execute_del_script. case_bool_decide.
  - apply js_del_script_frame.
  - cbn. tauto.
Qed.

(** When the loop throws, the marker it stopped at is off the page. *)
Lemma js_del_script_fail (ms body body' : list Node) (e : exn) :
  js_del_script ms body = (Some e, body') → ∃ m, m ∈ ms ∧ m ∉ body'.
Proof.
  revert body. induction ms as [|m ms IH]; intros body; [done |].
  cbn. destruct (removeChild m body) as [b|] eqn:Hrm.
  - intros (m' & Hm' & Hout)%IH. exists m'. split; [by right | done].
  - intros [= _ <-]. exists m. split; [by left | by apply removeChild_None].
Qed.

Lemma del_keeps_untracked (self : Agent) (x : Node) :
  x ∈ body_markers (browser self) →
  (∀ ms, rects self = Some ms → x ∉ ms) →
  x ∈ body_markers (browser (del_web_element_rect self).2).
Proof.
  intros Hx Hun. destruct (rects self) as [ms|] eqn:Hr.
  - rewrite (del_web_element_rect_eq _ ms Hr). cbn zeta.
    destruct (execute_del_script_frame ms (body_markers (browser self))) as [_ Hkeep].
    specialize (Hkeep x Hx (Hun ms eq_refl)).
    by destruct (execute_del_script ms (body_markers (browser self))) as [[e|] body].
  - by rewrite del_untracked.
Qed.

Lemma del_rects (self : Agent) :
  rects (del_web_element_rect self).2 = None
  ∨ rects (del_web_element_rect self).2 = rects self.
Proof.
  destruct (rects self) as [ms|] eqn:Hr.
  - rewrite (del_web_element_rect_eq _ ms Hr). cbn zeta.
    destruct (execute_del_script ms (body_markers (browser self))) as [[e|] body];
      cbn; auto.
  - rewrite del_untracked by done. by right.
Qed.

(** X3.  Whether it returns or raises, [del_web_element_rect] only ever
    takes tracked markers off the page: it adds no node, every node that
    is not in the tracked list stays, and the discovered elements, the
    session state and the screenshot are left alone; the tracked list is
    afterwards either cleared or what it was. *)
Theorem del_touches_tracked_markers_only (self : Agent) :
  let self' := (del_web_element_rect self).2 in
  (∀ x, x ∈ body_markers (browser self') → x ∈ body_markers (browser self))
  ∧ (∀ x, x ∈ body_markers (browser self) →
          (∀ ms, rects self = Some ms → x ∉ ms) →
          x ∈ body_markers (browser self'))
  ∧ discovered (browser self') = discovered (browser self)
  ∧ next_node (browser self') = next_node (browser self)
  ∧ state self' = state self
  ∧ image_part self' = image_part self
  ∧ (rects self' = None ∨ rects self' = rects self).
Proof.
  cbv zeta. split; [|split; [apply del_keeps_untracked |]].
  - destruct (rects self) as [ms|] eqn:Hr; [|by rewrite del_untracked].
    rewrite (del_web_element_rect_eq _ ms Hr). cbn zeta.
    destruct (execute_del_script_frame ms (body_markers (browser self))) as [Hsub _].
    by destruct (execute_del_script ms (body_markers (browser self))) as [[e|] body].
  - split; [|split; [|split; [apply del_keeps_state |split; [|apply del_rects]]]].
    all: destruct (rects self) as [ms|] eqn:Hr; [|by rewrite del_untracked].
    all: rewrite (del_web_element_rect_eq _ ms Hr); cbn zeta.
    all: by destruct (execute_del_script ms (body_markers (browser self))) as [[e|] body].
Qed.

(** After a call that raised, one of the tracked markers is off the
    page. *)
Lemma failed_del_leaves_stale (self self' : Agent) (e : exn) (ms : list Node) :
  rects self = Some ms →
  del_web_element_rect self = (Raise e, self') →
  rects self' = Some ms
  ∧ ∃ m, m ∈ ms ∧ m ∉ body_markers (browser self').
Proof.
  intros Hr Hdel. rewrite (del_web_element_rect_eq _ ms Hr) in Hdel.
  cbn zeta in Hdel. unfold execute_del_script in Hdel.
  case_bool_decide as Hall.
  - destruct (js_del_script ms (body_markers (browser self)))
      as [[e'|] body'] eqn:Hrun; cbn in Hdel; [|done].
    injection Hdel as -> <-. split; [done |]. cbn.
    by apply (js_del_script_fail _ _ _ _ Hrun).
  - cbn in Hdel. injection Hdel as <- <-. split; [done |]. cbn.
    apply not_Forall_Exists in Hall; [|intros m; apply _].
    by apply Exists_exists in Hall.
Qed.

(** X4.  A failed [del_web_element_rect] is not repaired by calling it
    again: on a page that holds no node twice, the second call raises as
    well and changes nothing, so no further marker leaves the page; when
    the tracked list names no marker twice it is the same exception. *)
Theorem failed_del_fails_again (self self' : Agent) (e : exn) :
  NoDup (body_markers (browser self)) →
  del_web_element_rect self = (Raise e, self') →
  ∃ e', del_web_element_rect self' = (Raise e', self')
        ∧ ∀ ms, rects self = Some ms → NoDup ms → e' = e.
Proof.
  intros Hnd Hdel. destruct (rects self) as [ms|] eqn:Hr; cycle 1.
  { rewrite del_untracked in Hdel by done. done. }
  destruct (failed_del_leaves_stale _ _ _ _ Hr Hdel) as [Hr' (m & Hm & Hout)].
  exists (StaleElementReferenceException "stale element reference"). split.
  - rewrite (del_web_element_rect_eq _ ms Hr').
    rewrite (execute_del_script_stale _ _ m Hm Hout). cbn. f_equal.
    rewrite <- Hr'. by destruct self' as [[? ? ?] ? ? ?].
  - intros ms' [= <-] Hms.
    rewrite (del_web_element_rect_eq _ ms Hr) in Hdel. cbn zeta in Hdel.
    unfold execute_del_script in Hdel. case_bool_decide as Hall.
    + assert (∀ x, x ∈ ms → x ∈ body_markers (browser self)) as Hsub.
      { intros x Hx. by eapply Forall_forall in Hall. }
      destruct (js_del_script_attached ms [] _ Hnd Hms Hsub)
        as (body' & Hrun & _).
      rewrite app_nil_r in Hrun. cbn in Hrun. by rewrite Hrun in Hdel.
    + cbn in Hdel. by injection Hdel as <- _.
Qed.

(** Three tracked markers, the second one detached: both calls raise. *)
Lemma failed_del_fails_again_witness :
  let e := StaleElementReferenceException "stale element reference" in
  let self' := (del_web_element_rect Samples.tampered).2 in
  NoDup (body_markers (browser Samples.tampered))
  ∧ del_web_element_rect Samples.tampered = (Raise e, self')
  ∧ ∃ e', del_web_element_rect self' = (Raise e', self')
          ∧ ∀ ms, rects Samples.tampered = Some ms → NoDup ms → e' = e.
Proof.
  cbv zeta.
  assert (NoDup (body_markers (browser Samples.tampered))) as Hnd.
  { apply (bool_decide_unpack _). vm_compute. exact I. }
  assert (del_web_element_rect Samples.tampered
          = (Raise (StaleElementReferenceException "stale element reference"),
             (del_web_element_rect Samples.tampered).2)) as Hdel.
  { vm_compute. reflexivity. }
  split; [exact Hnd |]. split; [exact Hdel |].
  exact (failed_del_fails_again _ _ _ Hnd Hdel).
Defined.

(** ** One observation of the page *)

Lemma removeChild_middle (m : Node) (old rest : list Node) :
  m ∉ old → removeChild m (old ++ m :: rest) = Some (old ++ rest).
Proof.
  induction old as [|x old IH]; intros Hm; cbn.
  - by rewrite decide_True.
  - apply not_elem_of_cons in Hm as [Hne Hm].
    rewrite decide_False by done. by rewrite IH.
Qed.

Lemma js_del_script_appended (ms old : list Node) :
  (∀ m, m ∈ ms → m ∉ old) → js_del_script ms (old ++ ms) = (None, old).
Proof.
  intros Hfresh. induction ms as [|m ms IH]; cbn.
  - by rewrite app_nil_r.
  - rewrite removeChild_middle by (apply Hfresh; by left).
    apply IH. intros x Hx. apply Hfresh. by right.
Qed.

(** The agent after [get_current_webpage_state], when its page and
    tracked list were in order. *)
Lemma get_current_webpage_state_eq (self : Agent) :
  well_tracked self →
  let items := discovered (browser self) in
  let text_ := join tab (format_lines items) in
  get_current_webpage_state self
  = (Return (join tab (chars text_)),
     {| browser := {| discovered := items;
                      body_markers := body_markers (browser self);
                      next_node := next_node (browser self) + length items |};
        rects := None;
        state := {| Session.webdriver := Session.webdriver (state self);
                    Session.web_elements := Some (element <$> items);
                    Session.formatted_ele_text := Some text_ |};
        image_part := Some (body_markers (browser self)
                            ++ seq (next_node (browser self)) (length items)) |}).
Proof.
  intros (Hnd & Hlt & Htr). cbv zeta.
  unfold get_current_webpage_state, get_web_element_rect, label_script,
    save_screenshot. cbn zeta. cbn [browser rects state image_part body_markers].
  match goal with |- context [del_web_element_rect ?a] => set (self2 := a) end.
  rewrite (del_web_element_rect_eq self2 _ eq_refl).
  rewrite execute_del_script_attached
    by (intros m Hm; apply elem_of_app; by right).
  cbn. rewrite js_del_script_appended; [done |].
  intros m Hm%elem_of_seq Hin. apply Hlt in Hin. lia.
Qed.

Lemma observed_well_tracked (self : Agent) :
  well_tracked self → well_tracked (get_current_webpage_state self).2.
Proof.
  intros Hwt. rewrite (get_current_webpage_state_eq self Hwt). cbn.
  destruct Hwt as (Hnd & Hlt & _). split; [done |]. split; [|done].
  intros m Hm. cbn in Hm |- *. apply Hlt in Hm. lia.
Qed.

(** X5.  On an agent whose page and tracked list are in order,
    [get_current_webpage_state] returns: the page has exactly the markers
    it had before, the tracked list is cleared, the screenshot shows the
    earlier markers followed by one new marker per discovered element,
    and the session state holds the handles of all discovered elements
    and the formatted text of this pass. *)
Theorem observation_leaves_no_markers (self : Agent) :
  well_tracked self →
  ∃ webtext self',
    get_current_webpage_state self = (Return webtext, self')
    ∧ body_markers (browser self') = body_markers (browser self)
    ∧ discovered (browser self') = discovered (browser self)
    ∧ rects self' = None
    ∧ well_tracked self'
    ∧ image_part self'
      = Some (body_markers (browser self)
              ++ seq (next_node (browser self)) (length (discovered (browser self))))
    ∧ Session.web_elements (state self') = Some (element <$> discovered (browser self))
    ∧ Session.formatted_ele_text (state self')
      = Some (join tab (format_lines (discovered (browser self))))
    ∧ Session.webdriver (state self') = Session.webdriver (state self).
Proof.
  intros Hwt. pose proof (observed_well_tracked self Hwt) as Hwt'.
  rewrite (get_current_webpage_state_eq self Hwt) in Hwt' |- *.
  eexists _, _. split; [done |]. do 3 (split; [done |]).
  split; [exact Hwt' |]. by repeat split.
Qed.

(** A fresh agent on the sample page. *)
Lemma observation_leaves_no_markers_witness :
  well_tracked (agent (fresh Samples.page_items))
  ∧ ∃ webtext self',
      get_current_webpage_state (agent (fresh Samples.page_items))
      = (Return webtext, self')
      ∧ body_markers (browser self') = []
      ∧ rects self' = None
      ∧ image_part self' = Some [0; 1; 2; 3].
Proof.
  split; [apply fresh_well_tracked |].
  destruct (observation_leaves_no_markers (agent (fresh Samples.page_items))
              (fresh_well_tracked _))
    as (webtext & self' & Hrun & Hbody & _ & Hr & _ & Himg & _).
  exists webtext, self'. split; [exact Hrun |]. split; [exact Hbody |].
  split; [exact Hr |]. exact Himg.
Defined.

(** ** Effects of the click tool *)

(** The outcome of the tool once the element number has passed the
    checks and denotes the handle [e]. *)
Lemma click_tool_at (n : Z) (ctx : Session.State) (w : World)
    (els : list WebElement) (e : WebElement) :
  is_Some (Session.webdriver ctx) →
  Session.web_elements ctx = Some els →
  (n < Z.of_nat (length els))%Z →
  index els n = Some e →
  tool_click_web_element n ctx w
  = match click_fault w !! node e with
    | Some msg => (Return {[ "error" := VStr msg ]}, w)
    | None =>
        (Return {[ "status" := VInt 200;
                   "message" := VStr ("Clicked on web element number "
                                      +:+ pretty n +:+ ".") ]},
         {| clicked := clicked w ++ [node e];
            click_fault := click_fault w;
            slept := slept w + 2 |})
    end.
Proof.
  intros Hb Hels Hn He. unfold tool_click_web_element.
  rewrite bool_decide_true by done. rewrite Hels. cbn [negb].
  change (default [] (Some els)) with els.
  assert (truthy_list (Some els) = true) as ->.
  { destruct els; [|done]. unfold index in He. by repeat case_match. }
  apply Z.leb_gt in Hn. rewrite Hn. cbn [negb orb].
  unfold click_body. rewrite He. unfold click.
  by destruct (click_fault w !! node e).
Qed.

(** X6.  With a browser in the context, an element number at or beyond
    the number of handles, and any number when there are no handles, is
    answered with the out-of-range error, and nothing is clicked or
    waited for. *)
Theorem click_refused_beyond_handles (n : Z) (ctx : Session.State) (w : World) :
  is_Some (Session.webdriver ctx) →
  truthy_list (Session.web_elements ctx) = false
  ∨ (Z.of_nat (length (default [] (Session.web_elements ctx))) ≤ n)%Z →
  tool_click_web_element n ctx w
  = (Return {[ "error" := VStr ("Web element number " +:+ pretty n
                                +:+ " is out of range.") ]}, w).
Proof.
  intros Hb Hout. unfold tool_click_web_element.
  rewrite bool_decide_true by done. cbn [negb].
  destruct Hout as [-> | Hn]; [done |].
  apply Z.leb_le in Hn. rewrite Hn. by rewrite orb_true_r.
Qed.

(** Number 2 with two handles. *)
Lemma click_refused_beyond_handles_witness :
  is_Some (Session.webdriver Samples.two_handles)
  ∧ tool_click_web_element 2 Samples.two_handles Samples.idle
    = (Return {[ "error" := VStr "Web element number 2 is out of range." ]},
       Samples.idle).
Proof.
  split; [by eexists |].
  apply (click_refused_beyond_handles 2 Samples.two_handles Samples.idle).
  - by eexists.
  - right. cbn. lia.
Defined.

(** X7.  With a browser in the context and a number from 0 to below the
    number of handles, the tool clicks the handle at that position and
    no other: when the click succeeds it is logged, two seconds are
    waited and the status is 200; when the click raises, the message of
    the exception comes back as error and nothing else has happened. *)
Theorem click_in_range (n : Z) (ctx : Session.State) (w : World)
    (els : list WebElement) :
  is_Some (Session.webdriver ctx) →
  Session.web_elements ctx = Some els →
  (0 ≤ n < Z.of_nat (length els))%Z →
  ∃ e, els !! Z.to_nat n = Some e
       ∧ tool_click_web_element n ctx w
         = match click_fault w !! node e with
           | Some msg => (Return {[ "error" := VStr msg ]}, w)
           | None =>
               (Return {[ "status" := VInt 200;
                          "message" := VStr ("Clicked on web element number "
                                             +:+ pretty n +:+ ".") ]},
                {| clicked := clicked w ++ [node e];
                   click_fault := click_fault w;
                   slept := slept w + 2 |})
           end.
Proof.
  intros Hb Hels Hn.
  destruct (lookup_lt_is_Some_2 els (Z.to_nat n)) as [e He]; [lia |].
  exists e. split; [done |].
  apply (click_tool_at n ctx w els e); [done | done | lia |].
  unfold index. by rewrite (proj2 (Z.leb_le 0 n)) by lia.
Qed.

(** Number 1 with two handles, on a page where every click succeeds. *)
Lemma click_in_range_witness :
  let els := [Samples.link 10; Samples.link 11] in
  is_Some (Session.webdriver Samples.two_handles)
  ∧ (0 ≤ 1 < Z.of_nat (length els))%Z
  ∧ ∃ e, els !! Z.to_nat 1 = Some e
         ∧ tool_click_web_element 1 Samples.two_handles Samples.idle
           = match click_fault Samples.idle !! node e with
             | Some msg => (Return {[ "error" := VStr msg ]}, Samples.idle)
             | None =>
                 (Return {[ "status" := VInt 200;
                            "message" := VStr ("Clicked on web element number "
                                               +:+ pretty 1%Z +:+ ".") ]},
                  {| clicked := clicked Samples.idle ++ [node e];
                     click_fault := click_fault Samples.idle;
                     slept := slept Samples.idle + 2 |})
             end.
Proof.
  cbv zeta. split; [by eexists |]. split; [cbn; lia |].
  apply (click_in_range 1 Samples.two_handles Samples.idle
           [Samples.link 10; Samples.link 11]).
  - by eexists.
  - reflexivity.
  - cbn. lia.
Defined.

(** X8.  A negative number down to minus the number of handles passes
    the range check and is taken as Python takes it, counting from the
    end: the tool clicks the handle at position [len + n]. *)
Theorem click_negative_counts_from_end (n : Z) (ctx : Session.State) (w : World)
    (els : list WebElement) :
  is_Some (Session.webdriver ctx) →
  Session.web_elements ctx = Some els →
  (- Z.of_nat (length els) ≤ n < 0)%Z →
  ∃ e, els !! Z.to_nat (Z.of_nat (length els) + n) = Some e
       ∧ tool_click_web_element n ctx w
         = match click_fault w !! node e with
           | Some msg => (Return {[ "error" := VStr msg ]}, w)
           | None =>
               (Return {[ "status" := VInt 200;
                          "message" := VStr ("Clicked on web element number "
                                             +:+ pretty n +:+ ".") ]},
                {| clicked := clicked w ++ [node e];
                   click_fault := click_fault w;
                   slept := slept w + 2 |})
           end.
Proof.
  intros Hb Hels Hn.
  destruct (lookup_lt_is_Some_2 els (Z.to_nat (Z.of_nat (length els) + n)))
    as [e He]; [lia |].
  exists e. split; [done |].
  apply (click_tool_at n ctx w els e); [done | done | lia |].
  unfold index. rewrite (proj2 (Z.leb_gt 0 n)) by lia.
  by rewrite (proj2 (Z.leb_le (- Z.of_nat (length els)) n)) by lia.
Qed.

(** Number -2 with two handles: the first handle is clicked. *)
Lemma click_negative_counts_from_end_witness :
  let els := [Samples.link 10; Samples.link 11] in
  is_Some (Session.webdriver Samples.two_handles)
  ∧ (- Z.of_nat (length els) ≤ -2 < 0)%Z
  ∧ ∃ e, els !! Z.to_nat (Z.of_nat (length els) + -2) = Some e
         ∧ tool_click_web_element (-2) Samples.two_handles Samples.idle
           = match click_fault Samples.idle !! node e with
             | Some msg => (Return {[ "error" := VStr msg ]}, Samples.idle)
             | None =>
                 (Return {[ "status" := VInt 200;
                            "message" := VStr ("Clicked on web element number "
                                               +:+ pretty (-2)%Z +:+ ".") ]},
                  {| clicked := clicked Samples.idle ++ [node e];
                     click_fault := click_fault Samples.idle;
                     slept := slept Samples.idle + 2 |})
             end.
Proof.
  cbv zeta. split; [by eexists |]. split; [cbn; lia |].
  apply (click_negative_counts_from_end (-2) Samples.two_handles Samples.idle
           [Samples.link 10; Samples.link 11]).
  - by eexists.
  - reflexivity.
  - cbn. lia.
Defined.

(** X9.  Whatever its arguments, one call of the tool clicks at most one
    element, and that one is among the handles of the context; it waits
    two seconds exactly when it has clicked; an error dictionary means
    that nothing was clicked; and the tool never changes which elements
    fail. *)
Theorem click_tool_effects (n : Z) (ctx : Session.State) (w : World) :
  ∃ d w',
    tool_click_web_element n ctx w = (Return d, w')
    ∧ click_fault w' = click_fault w
    ∧ ((is_error d ∧ w' = w)
       ∨ (is_ok d
          ∧ ∃ e, e ∈ default [] (Session.web_elements ctx)
                 ∧ click_fault w !! node e = None
                 ∧ clicked w' = clicked w ++ [node e]
                 ∧ slept w' = slept w + 2)).
Proof.
  unfold tool_click_web_element.
  destruct (bool_decide (is_Some (Session.webdriver ctx))); cbn [negb]; cycle 1.
  { eexists _, _. split; [done |]. split; [done |]. left. split; [by eexists | done]. }
  destruct (negb _ || _).
  { eexists _, _. split; [done |]. split; [done |]. left. split; [by eexists | done]. }
  unfold click_body.
  destruct (index _ n) as [e|] eqn:He; cycle 1.
  { eexists _, _. split; [done |]. split; [done |]. left. split; [by eexists | done]. }
  assert (e ∈ default [] (Session.web_elements ctx)) as Hin.
  { unfold index in He. repeat case_match; try done;
      by eapply list_elem_of_lookup_2. }
  unfold click. destruct (click_fault w !! node e) as [msg|] eqn:Hf.
  { eexists _, _. split; [done |]. split; [done |]. left. split; [by eexists | done]. }
  eexists _, _. split; [done |]. split; [done |]. right. split.
  { split; by simplify_map_eq. }
  by exists e.
Qed.

(** X10.  The number in front of a listed element is the number to click
    it: after [get_current_webpage_state] on an orderly agent with a
    browser in its state, the tool run on that state with the index of a
    discovered element, on a page where this element can be clicked,
    clicks exactly this element; and the line of the element, if it has
    one, is a line of the text stored in the state. *)
Theorem observed_index_clicks_its_element (self : Agent) (w : World)
    (i : nat) (item : RawItem) :
  well_tracked self →
  is_Some (Session.webdriver (state self)) →
  discovered (browser self) !! i = Some item →
  click_fault w !! node (element item) = None →
  let self' := (get_current_webpage_state self).2 in
  tool_click_web_element (Z.of_nat i) (state self') w
  = (Return {[ "status" := VInt 200;
               "message" := VStr ("Clicked on web element number "
                                  +:+ pretty (Z.of_nat i) +:+ ".") ]},
     {| clicked := clicked w ++ [node (element item)];
        click_fault := click_fault w;
        slept := slept w + 2 |})
  ∧ ∀ line, format_entry i item = Some line →
      ∃ lines, Session.formatted_ele_text (state self') = Some (join tab lines)
               ∧ line ∈ lines.
Proof.
  intros Hwt Hb Hi Hf. cbv zeta.
  rewrite (get_current_webpage_state_eq self Hwt). cbn [snd state]. split.
  - rewrite (click_tool_at (Z.of_nat i) _ w
               (element <$> discovered (browser self)) (element item));
      [by rewrite Hf | done | done | |].
    + rewrite length_fmap. apply lookup_lt_Some in Hi. lia.
    + unfold index. rewrite (proj2 (Z.leb_le 0 (Z.of_nat i))) by lia.
      by rewrite Nat2Z.id, list_lookup_fmap, Hi.
  - intros line Hline. eexists. split; [done |].
    apply elem_of_format_lines. eauto.
Qed.

(** The button Submit, fourth on the sample page. *)
Lemma observed_index_clicks_its_element_witness :
  let self := {| browser := browser (agent (fresh Samples.page_items));
                 rects := None;
                 state := Samples.two_handles;
                 image_part := None |} in
  well_tracked self
  ∧ (tool_click_web_element 3 (state (get_current_webpage_state self).2) Samples.idle).2
    = {| clicked := [102]; click_fault := ∅; slept := 2 |}.
Proof.
  cbv zeta.
  set (self := {| browser := browser (agent (fresh Samples.page_items));
                  rects := None; state := Samples.two_handles;
                  image_part := None |}).
  assert (well_tracked self) as Hwt.
  { split; [apply NoDup_nil_2 |]. split; [by intros m Hm%elem_of_nil | done]. }
  split; [exact Hwt |].
  destruct (observed_index_clicks_its_element self Samples.idle 3
              Samples.submit_button Hwt) as [Hclick _].
  - by eexists.
  - reflexivity.
  - reflexivity.
  - cbv zeta in Hclick. change (Z.of_nat 3) with 3%Z in Hclick.
    by rewrite Hclick.
Defined.

(** ** Nodes the annotator does not track *)

Lemma untracked_node_stays_step (t : Trace) (c : Call) (m : Node) :
  well_tracked (agent t) →
  m ∈ body_markers (browser (agent t)) →
  (∀ ms, rects (agent t) = Some ms → m ∉ ms) →
  m ∈ body_markers (browser (agent (call_step t c)))
  ∧ ∀ ms, rects (agent (call_step t c)) = Some ms → m ∉ ms.
Proof.
  intros (Hnd & Hlt & Htr) Hm Hun. destruct c as [fc|].
  - rewrite call_step_annotate. unfold get_web_element_rect, label_script. cbn.
    split; [apply elem_of_app; by left |].
    intros ms [= <-] Hin%elem_of_seq. apply Hlt in Hm. lia.
  - cbn [call_step agent].
    split; [by apply del_keeps_untracked |].
    intros ms Hms.
    destruct (del_rects (agent t)) as [Hr|Hr]; rewrite Hr in Hms; [done | by apply Hun].
Qed.

(** X19.  The annotator never removes a node of the page that it does not
    track.  In particular the markers of a pass that was followed by
    another pass without a clear in between are never removed again,
    whatever calls follow. *)
Theorem untracked_node_stays (cs : list Call) (t : Trace) (m : Node) :
  well_tracked (agent t) →
  m ∈ body_markers (browser (agent t)) →
  (∀ ms, rects (agent t) = Some ms → m ∉ ms) →
  m ∈ body_markers (browser (agent (run_calls cs t))).
Proof.
  revert t. induction cs as [|c cs IH]; intros t Hwt Hm Hun; [done |].
  destruct (untracked_node_stays_step t c m Hwt Hm Hun) as [Hm' Hun'].
  apply (IH (call_step t c)); [by apply call_step_well_tracked | done | done].
Qed.

(** Marker 0 of a first pass, after a second pass: a clear and a third
    pass later it is still on the page. *)
Lemma untracked_node_stays_witness :
  let t := run_calls [Annotate true; Annotate true] (fresh [Samples.div_hi]) in
  well_tracked (agent t)
  ∧ 0 ∈ body_markers (browser (agent t))
  ∧ rects (agent t) = Some [1]
  ∧ 0 ∈ body_markers (browser (agent (run_calls [Clear; Annotate false; Clear] t))).
Proof.
  cbv zeta.
  assert (well_tracked (agent (run_calls [Annotate true; Annotate true]
                                 (fresh [Samples.div_hi])))) as Hwt.
  { apply run_calls_well_tracked, fresh_well_tracked. }
  assert (0 ∈ body_markers (browser (agent (run_calls [Annotate true; Annotate true]
                                              (fresh [Samples.div_hi]))))) as Hm.
  { vm_compute. by left. }
  split; [exact Hwt |]. split; [exact Hm |]. split; [reflexivity |].
  apply (untracked_node_stays [Clear; Annotate false; Clear] _ 0 Hwt Hm).
  intros ms [= <-]. apply (bool_decide_unpack _). vm_compute. exact I.
Defined.

(** ** The text returned to the loop *)

Lemma chars_length (s : string) : length (chars s) = String.length s.
Proof. induction s as [|c s IH]; cbn; [done | by rewrite IH]. Qed.

Lemma app_string_length (a b : string) :
  String.length (a +:+ b) = String.length a + String.length b.
Proof.
  induction a as [|c a IH]; [done |].
  rewrite app_string_cons. cbn. by rewrite IH.
Qed.

Lemma join_chars_length (sep s : string) :
  s ≠ EmptyString →
  String.length (join sep (chars s)) + String.length sep
  = String.length s * (1 + String.length sep).
Proof.
  induction s as [|c s IH]; intros Hs; [done |].
  destruct s as [|d s]; [cbn; lia |].
  change (chars (String c (String d s)))
    with (String c EmptyString :: chars (String d s)).
  change (join sep (String c EmptyString :: chars (String d s)))
    with (String c EmptyString +:+ sep +:+ join sep (chars (String d s))).
  rewrite !app_string_length.
  specialize (IH ltac:(done)).
  change (String.length (String c (String d s)))
    with (S (String.length (String d s))).
  cbn [String.length] in IH |- *. lia.
Qed.

(** X20.  On an orderly agent, what [get_current_webpage_state] returns
    is the formatted text stored in the session state with a tab put
    between every two of its characters: a stored text of [n] characters
    comes back with [2 n - 1] characters, and only a text of at most one
    character comes back unchanged. *)
Theorem returned_text_is_spaced_out (self : Agent) :
  well_tracked self →
  ∃ stored self',
    get_current_webpage_state self = (Return (join tab (chars stored)), self')
    ∧ Session.formatted_ele_text (state self') = Some stored
    ∧ stored = join tab (format_lines (discovered (browser self)))
    ∧ (stored ≠ EmptyString →
       String.length (join tab (chars stored)) = 2 * String.length stored - 1)
    ∧ (join tab (chars stored) = stored ↔ String.length stored ≤ 1).
Proof.
  intros Hwt. rewrite (get_current_webpage_state_eq self Hwt). cbv zeta.
  eexists _, _. split; [done |]. split; [done |]. split; [done |].
  set (stored := join tab (format_lines (discovered (browser self)))).
  assert (stored ≠ EmptyString →
          String.length (join tab (chars stored)) = 2 * String.length stored - 1)
    as Hlen.
  { intros Hs. pose proof (join_chars_length tab stored Hs) as H.
    change (String.length tab) with 1 in H. lia. }
  split; [exact Hlen |]. split.
  - intros Heq. destruct stored as [|c stored']; [cbn; lia |].
    specialize (Hlen ltac:(done)). rewrite Heq in Hlen. lia.
  - intros Hle. destruct stored as [|c [|d stored']]; [done | done |].
    cbn in Hle. lia.
Qed.

(** The sample page. *)
Lemma returned_text_is_spaced_out_witness :
  well_tracked (agent (fresh Samples.page_items))
  ∧ ∃ stored self',
      get_current_webpage_state (agent (fresh Samples.page_items))
      = (Return (join tab (chars stored)), self')
      ∧ Session.formatted_ele_text (state self') = Some stored
      ∧ stored = join tab (format_lines Samples.page_items).
Proof.
  split; [apply fresh_well_tracked |].
  destruct (returned_text_is_spaced_out (agent (fresh Samples.page_items))
              (fresh_well_tracked _))
    as (stored & self' & Hrun & Hst & Hstored & _).
  by exists stored, self'.
Defined.

(** ** The events of one model call *)

Lemma call_llm_loop_find (iterations iteration : nat) (printed events : list Event) :
  iteration < iterations →
  call_llm_loop iterations iteration printed events
  = match list_find (λ e, is_final_response e = true) events with
    | Some (i, event) => (Some (content event), printed ++ take (S i) events, iteration)
    | None => (None, printed ++ events, iteration)
    end.
Proof.
  intros Hit. revert printed. induction events as [|event rest IH]; intros printed.
  - cbn. by rewrite app_nil_r.
  - cbn [call_llm_loop list_find]. destruct (is_final_response event) eqn:Hfin.
    + rewrite decide_True by done. cbn. by rewrite take_0.
    + rewrite decide_False by done.
      rewrite (proj2 (Nat.leb_gt iterations iteration)) by done.
      rewrite IH. destruct (list_find _ rest) as [[i ev]|]; cbn;
        by rewrite <- app_assoc.
Qed.

(** X11.  [call_llm] returns the content of the first event that is a
    final response and reads no event after it; without such an event it
    reads them all and returns [None].  Its counter never leaves 0, so
    the bound of 100 never ends the loop, however many events come. *)
Theorem call_llm_first_final_response (events : list Event) :
  call_llm events
  = match list_find (λ e, is_final_response e = true) events with
    | Some (i, event) => (Some (content event), take (S i) events, 0)
    | None => (None, events, 0)
    end.
Proof.
  unfold call_llm. rewrite call_llm_loop_find by lia.
  by destruct (list_find _ events) as [[i ev]|].
Qed.

(** ** The tools handed to the model *)

Lemma elem_of_available_tools {F} (functions : list (string * F)) (p : string * F) :
  p ∈ available_tools functions
  ↔ String.prefix "tool_" p.1 = true ∧ p ∈ functions.
Proof. unfold available_tools. by rewrite list_elem_of_filter. Qed.

Lemma available_tools_NoDup {F} (functions : list (string * F)) :
  NoDup functions.*1 → NoDup (available_tools functions).*1.
Proof.
  intros Hnd. eapply sublist_NoDup; [exact Hnd |].
  apply fmap_sublist, sublist_filter.
Qed.

Lemma omap_lookup_all {F} (d : gmap string F) (l : list (string * F)) :
  (∀ p, p ∈ l → d !! p.1 = Some p.2) →
  omap (λ name, d !! name) l.*1 = l.*2.
Proof.
  induction l as [|p l IH]; intros Hl; [done |].
  cbn. rewrite (Hl p) by by left. cbn. f_equal. apply IH.
  intros q Hq. apply Hl. by right.
Qed.

(** X12.  Whatever the configuration lists, every function handed to the
    model is a function of the tools module whose name starts with
    tool_; and when the configuration lists names, it is one of the
    listed names. *)
Theorem exposed_tools_are_tool_functions {F} (functions : list (string * F))
    (config : Config) (f : F) :
  f ∈ setup_tools functions config →
  ∃ name, (name, f) ∈ functions
          ∧ String.prefix "tool_" name = true
          ∧ ∀ names, allowed_tools config = Some names → name ∈ names.
Proof.
  unfold setup_tools. intros (name & Hname & Hf)%list_elem_of_omap.
  apply elem_of_list_to_map_2 in Hf.
  apply elem_of_available_tools in Hf as [Hpre Hin].
  exists name. split; [done |]. split; [done |].
  intros names Hcfg. by rewrite Hcfg in Hname.
Qed.

(** X13.  Without the key allowed_tools in the configuration, all
    functions of the module whose name starts with tool_ are handed to
    the model, in the order of their names in the module listing; for
    the tools module these are the answer, the click and the wait tool. *)
Theorem default_exposes_all_tools {F} (functions : list (string * F))
    (config : Config) :
  NoDup functions.*1 →
  allowed_tools config = None →
  setup_tools functions config = (available_tools functions).*2.
Proof.
  intros Hnd Hcfg. unfold setup_tools. rewrite Hcfg. cbn [default from_option id].
  apply omap_lookup_all. intros [n f] Hp.
  apply elem_of_list_to_map_1; [by apply available_tools_NoDup | done].
Qed.

(** A configuration that allows the click tool and a name that is no
    tool: only the click tool is handed out. *)
Lemma exposed_tools_are_tool_functions_witness :
  setup_tools module_functions Cases.click_only = [ClickWebElement]
  ∧ ∃ name, (name, ClickWebElement) ∈ module_functions
            ∧ String.prefix "tool_" name = true
            ∧ ∀ names, allowed_tools Cases.click_only = Some names → name ∈ names.
Proof.
  split; [vm_compute; reflexivity |].
  apply (exposed_tools_are_tool_functions module_functions Cases.click_only).
  vm_compute. by left.
Defined.

(** The tools module with the default configuration. *)
Lemma default_exposes_all_tools_witness :
  NoDup module_functions.*1
  ∧ setup_tools module_functions Cases.defaults
    = [AnswerUserQuery; ClickWebElement; Wait].
Proof.
  assert (NoDup module_functions.*1) as Hnd.
  { apply (bool_decide_unpack _). vm_compute. exact I. }
  split; [exact Hnd |].
  by rewrite (default_exposes_all_tools module_functions Cases.defaults Hnd eq_refl).
Defined.

(** ** The decision loop *)

Lemma observe_eq (m : Machine) :
  observe m
  = ((get_current_webpage_state (self m)).1,
     {| self := (get_current_webpage_state (self m)).2; notes := notes m |}).
Proof. unfold observe. by destruct (get_current_webpage_state (self m)). Qed.

Lemma observe_orderly (m : Machine) :
  well_tracked (self m) →
  ∃ webtext m', observe m = (Return webtext, m')
                ∧ well_tracked (self m') ∧ notes m' = notes m
                ∧ self m' = (get_current_webpage_state (self m)).2.
Proof.
  intros Hwt. rewrite observe_eq.
  pose proof (observed_well_tracked _ Hwt) as Hwt'.
  rewrite (get_current_webpage_state_eq _ Hwt) in Hwt' |- *.
  by eexists _, _.
Qed.

(** The messages of the loop: those sent before, then the pending one,
    then update messages; never more than the iterations left. *)
Lemma run_loop_sent (llm : Model) (n iteration : nat) (parts : list Part)
    (m : Machine) (sent : list (list Part)) :
  ∃ new, (run_loop llm n iteration parts m sent).2 = sent ++ new
         ∧ length new ≤ n
         ∧ (new = [] ∨ ∃ rest, new = parts :: rest ∧ Forall update_shaped rest).
Proof.
  revert iteration parts m sent.
  induction n as [|n IH]; intros iteration parts m sent; cbn [run_loop].
  { exists []. cbn. rewrite app_nil_r. split; [done |]. split; [done | by left]. }
  assert (∃ new, sent ++ [parts] = sent ++ new ∧ length new ≤ S n
                 ∧ (new = [] ∨ ∃ rest, new = parts :: rest ∧ Forall update_shaped rest))
    as Hstop.
  { exists [parts]. split; [done |]. split; [cbn; lia |]. right. by exists []. }
  destruct (llm iteration parts m) as [[[]|e] m1]; [|done].
  destruct (truthy_opt (final_answer (notes m1))); [done |].
  destruct (observe m1) as [[webtext|e] m2]; [|done].
  match goal with |- context [run_loop llm n ?i ?p ?mm ?s] =>
    destruct (IH i p mm s) as (new & -> & Hlen & Hnew) end.
  exists (parts :: new). rewrite <- app_assoc. split; [done |].
  split; [cbn; lia |]. right. exists new. split; [done |].
  destruct Hnew as [-> | (rest & -> & Hrest)]; [done |].
  constructor; [by eexists _, _ | done].
Qed.

(** X14.  [run] calls the model at most [max_iterations] times (10 when
    the configuration has no such key, never for a negative value).
    Every message has three parts, a text, the text of the page and the
    screenshot; the first message carries the user's query and every
    later one the fixed request for the next action. *)
Theorem run_calls_model_at_most_max_iterations (llm : Model) (config : Config)
    (user_query : string) (m : Machine) :
  let sent := (run llm config user_query m).2 in
  length sent ≤ Z.to_nat (default 10%Z (max_iterations config))
  ∧ ∀ k parts, sent !! k = Some parts →
      ∃ webtext img,
        parts = [TextPart (if k is 0 then user_query else update_request);
                 TextPart webtext; ImagePart img].
Proof.
  cbv zeta. unfold run.
  destruct (observe _) as [[webtext|e] m1].
  2:{ cbn. split; [lia | done]. }
  cbn zeta.
  match goal with |- context [run_loop llm ?n ?i ?p ?mm ?s] =>
    destruct (run_loop_sent llm n i p mm s) as (new & -> & Hlen & Hnew) end.
  cbn [app]. split; [done |].
  intros k parts Hk. destruct Hnew as [-> | (rest & -> & Hrest)]; [done |].
  destruct k as [|k]; cbn in Hk.
  - injection Hk as <-. by eexists _, _.
  - eapply Forall_lookup_1 in Hrest; [|done]. exact Hrest.
Qed.

Lemma run_loop_result (llm : Model) (n iteration : nat) (parts : list Part)
    (m m' : Machine) (sent sent' : list (list Part)) (s : string) :
  run_loop llm n iteration parts m sent = (Return s, m', sent') →
  (s = failure_message ∧ length sent' = length sent + n)
  ∨ (s ≠ EmptyString ∧ final_answer (notes m') = Some s
     ∧ length sent < length sent').
Proof.
  revert iteration parts m sent.
  induction n as [|n IH]; intros iteration parts m sent; cbn [run_loop].
  { intros [= <- <- <-]. left. split; [done | lia]. }
  destruct (llm iteration parts m) as [[[]|e] m1]; [|done].
  destruct (final_answer (notes m1)) as [a|] eqn:Ha; cbn [truthy_opt fmt_opt].
  - destruct (truthy a) eqn:Hta.
    + intros [= <- <- <-]. right. split; [by apply truthy_true |].
      split; [done |]. rewrite length_app. cbn. lia.
    + destruct (observe m1) as [[webtext|e] m2]; [|done].
      intros Hrun. apply IH in Hrun as [[-> Hlen] | (Hs & Hfin & Hlen)].
      * left. split; [done |]. rewrite length_app in Hlen. cbn in Hlen. lia.
      * right. split; [done |]. split; [done |].
        rewrite length_app in Hlen. cbn in Hlen. lia.
  - destruct (observe m1) as [[webtext|e] m2]; [|done].
    intros Hrun. apply IH in Hrun as [[-> Hlen] | (Hs & Hfin & Hlen)].
    + left. split; [done |]. rewrite length_app in Hlen. cbn in Hlen. lia.
    + right. split; [done |]. split; [done |].
      rewrite length_app in Hlen. cbn in Hlen. lia.
Qed.

(** X15.  When [run] returns a string, it is either the fixed failure
    message, after exactly [max_iterations] calls of the model, or an
    answer that is not empty, stands under final_answer in the session
    state and was found after at least one call of the model. *)
Theorem run_returns_answer_or_failure (llm : Model) (config : Config)
    (user_query : string) (m m' : Machine) (sent : list (list Part)) (s : string) :
  run llm config user_query m = (Return s, m', sent) →
  (s = failure_message
   ∧ length sent = Z.to_nat (default 10%Z (max_iterations config)))
  ∨ (s ≠ EmptyString ∧ final_answer (notes m') = Some s ∧ 0 < length sent).
Proof.
  unfold run. destruct (observe _) as [[webtext|e] m1]; [|done].
  cbn zeta. intros Hrun. apply run_loop_result in Hrun. cbn in Hrun.
  destruct Hrun as [[-> Hlen] | (Hs & Hfin & Hlen)]; [by left | by right].
Qed.

(** X16.  With [max_iterations] zero or negative, [run] on an orderly
    agent returns the failure message without calling the model, but has
    looked at the page once: the task is stored, an answer left from an
    earlier run is erased, and the agent is as after one
    [get_current_webpage_state]. *)
Theorem run_without_iterations (llm : Model) (config : Config)
    (user_query : string) (m : Machine) :
  well_tracked (self m) →
  (default 10 (max_iterations config) ≤ 0)%Z →
  run llm config user_query m
  = (Return failure_message,
     {| self := (get_current_webpage_state (self m)).2;
        notes := {| user_task := Some user_query;
                    final_answer := None;
                    action_taken := None |} |},
     []).
Proof.
  intros Hwt Hmax. unfold run.
  match goal with |- context [observe ?m0] =>
    destruct (observe_orderly m0 Hwt) as (webtext & m1 & -> & _ & Hnotes & Hself) end.
  cbn zeta. replace (Z.to_nat _) with 0 by lia.
  cbn [run_loop]. rewrite Hself, Hnotes. done.
Qed.

(** A machine that holds an earlier answer, and no iterations. *)
Lemma run_without_iterations_witness :
  well_tracked (self Cases.answered_before)
  ∧ (default 10 (max_iterations Cases.no_iterations) ≤ 0)%Z
  ∧ (run Cases.answers_third Cases.no_iterations "find the form" Cases.answered_before).1.1
    = Return failure_message
  ∧ final_answer
      (notes (run Cases.answers_third Cases.no_iterations "find the form"
                Cases.answered_before).1.2) = None.
Proof.
  assert (well_tracked (self Cases.answered_before)) as Hwt
    by apply fresh_well_tracked.
  assert (default 10 (max_iterations Cases.no_iterations) ≤ 0)%Z as Hmax
    by (cbn; lia).
  split; [exact Hwt |]. split; [exact Hmax |].
  by rewrite (run_without_iterations Cases.answers_third Cases.no_iterations
                "find the form" Cases.answered_before Hwt Hmax).
Defined.

Lemma run_loop_answer (llm : Model) (k : nat) (a : string) :
  answers_at llm k a → a ≠ EmptyString →
  ∀ n iteration parts m sent,
    well_tracked (self m) → truthy_opt (final_answer (notes m)) = false →
    iteration ≤ k → k < iteration + n →
    ∃ m' sent',
      run_loop llm n iteration parts m sent = (Return a, m', sent')
      ∧ length sent' = length sent + (k - iteration) + 1.
Proof.
  intros Hllm Ha.
  induction n as [|n IH]; intros iteration parts m sent Hwt Hno Hle Hlt; [lia |].
  cbn [run_loop].
  destruct (Hllm iteration parts m Hwt Hno) as (m1 & -> & Hwt1 & Hbefore & Hat).
  destruct (decide (iteration = k)) as [->|Hne].
  - rewrite (Hat eq_refl). cbn [truthy_opt fmt_opt].
    rewrite (proj2 (truthy_true a) Ha).
    eexists _, _. split; [done |]. rewrite length_app. cbn. lia.
  - rewrite Hbefore by lia.
    destruct (observe_orderly m1 Hwt1) as (webtext & m2 & -> & Hwt2 & Hnotes & _).
    match goal with |- context [run_loop llm n ?i ?p ?mm ?s] =>
      destruct (IH i p mm s) as (m' & sent' & -> & Hlen);
        [done | rewrite Hnotes; apply Hbefore; lia | lia | lia |] end.
    eexists _, _. split; [done |]. rewrite length_app in Hlen. cbn in Hlen. lia.
Qed.

Lemma run_loop_exhausted (llm : Model) :
  never_answers llm →
  ∀ n iteration parts m sent,
    well_tracked (self m) → truthy_opt (final_answer (notes m)) = false →
    ∃ m' sent',
      run_loop llm n iteration parts m sent = (Return failure_message, m', sent')
      ∧ length sent' = length sent + n.
Proof.
  intros Hllm. induction n as [|n IH]; intros iteration parts m sent Hwt Hno;
    cbn [run_loop].
  { eexists _, _. split; [done | lia]. }
  destruct (Hllm iteration parts m Hwt Hno) as (m1 & -> & Hwt1 & Hno1).
  rewrite Hno1.
  destruct (observe_orderly m1 Hwt1) as (webtext & m2 & -> & Hwt2 & Hnotes & _).
  match goal with |- context [run_loop llm n ?i ?p ?mm ?s] =>
    destruct (IH i p mm s) as (m' & sent' & -> & Hlen);
      [done | by rewrite Hnotes |] end.
  eexists _, _. split; [done |]. rewrite length_app in Hlen. cbn in Hlen. lia.
Qed.

Lemma run_start (llm : Model) (config : Config) (user_query : string) (m : Machine) :
  well_tracked (self m) →
  ∃ parts m2,
    run llm config user_query m
    = run_loop llm (Z.to_nat (default 10%Z (max_iterations config))) 0 parts m2 []
    ∧ well_tracked (self m2)
    ∧ final_answer (notes m2) = None.
Proof.
  intros Hwt. unfold run.
  match goal with |- context [observe ?m0] =>
    destruct (observe_orderly m0 Hwt) as (webtext & m1 & -> & Hwt1 & _) end.
  cbn zeta. by eexists _, _.
Qed.

Lemma answers_third_spec :
  answers_at Cases.answers_third 2 "The form is on the contact page.".
Proof.
  intros i parts m Hm Hno. unfold Cases.answers_third. eexists. split; [done |].
  destruct (Nat.eqb_spec i 2) as [->|Hne].
  - split; [done |]. split; [lia | done].
  - split; [done |]. split; [done | lia].
Qed.

(** X17.  If the model, while it keeps the agent orderly, leaves its
    first non-empty answer at its call number [k] (counted from 0) and
    [k] is below [max_iterations], then [run] returns that answer after
    exactly [k + 1] calls of the model. *)
Theorem run_returns_first_answer (llm : Model) (config : Config)
    (user_query : string) (m : Machine) (k : nat) (a : string) :
  well_tracked (self m) →
  answers_at llm k a →
  a ≠ EmptyString →
  (Z.of_nat k < default 10 (max_iterations config))%Z →
  ∃ m' sent,
    run llm config user_query m = (Return a, m', sent)
    ∧ length sent = S k.
Proof.
  intros Hwt Hllm Ha Hk.
  destruct (run_start llm config user_query m Hwt) as (parts & m2 & -> & Hwt2 & Hno).
  destruct (run_loop_answer llm k a Hllm Ha
              (Z.to_nat (default 10%Z (max_iterations config))) 0 parts m2 [])
    as (m' & sent & -> & Hlen); [done | by rewrite Hno | lia | lia |].
  eexists _, _. split; [done |]. cbn in Hlen. lia.
Qed.

(** X18.  If the model, while it keeps the agent orderly, never leaves a
    non-empty answer, and an empty string recorded as answer counts as
    none, then [run] returns the failure message after exactly
    [max_iterations] calls of the model. *)
Theorem run_gives_up_without_answer (llm : Model) (config : Config)
    (user_query : string) (m : Machine) :
  well_tracked (self m) →
  never_answers llm →
  ∃ m' sent,
    run llm config user_query m = (Return failure_message, m', sent)
    ∧ length sent = Z.to_nat (default 10%Z (max_iterations config)).
Proof.
  intros Hwt Hllm.
  destruct (run_start llm config user_query m Hwt) as (parts & m2 & -> & Hwt2 & Hno).
  destruct (run_loop_exhausted llm Hllm
              (Z.to_nat (default 10%Z (max_iterations config))) 0 parts m2 [])
    as (m' & sent & -> & Hlen); [done | by rewrite Hno |].
  eexists _, _. split; [done |]. by cbn in Hlen.
Qed.

(** The model that answers at its third call, with the default of ten
    iterations. *)
Lemma run_returns_first_answer_witness :
  well_tracked (self Cases.start)
  ∧ answers_at Cases.answers_third 2 "The form is on the contact page."
  ∧ ∃ m' sent,
      run Cases.answers_third Cases.defaults "find the form" Cases.start
      = (Return "The form is on the contact page.", m', sent)
      ∧ length sent = 3.
Proof.
  assert (well_tracked (self Cases.start)) as Hwt by apply fresh_well_tracked.
  split; [exact Hwt |]. split; [exact answers_third_spec |].
  apply (run_returns_first_answer Cases.answers_third Cases.defaults
           "find the form" Cases.start 2 _ Hwt answers_third_spec);
    [discriminate | cbn; lia].
Defined.

(** The model that records the empty string with the answer tool at
    every call: ten calls, then the failure message. *)
Lemma run_gives_up_without_answer_witness :
  well_tracked (self Cases.start)
  ∧ never_answers Cases.answers_nothing
  ∧ ∃ m' sent,
      run Cases.answers_nothing Cases.defaults "find the form" Cases.start
      = (Return failure_message, m', sent)
      ∧ length sent = 10.
Proof.
  assert (well_tracked (self Cases.start)) as Hwt by apply fresh_well_tracked.
  assert (never_answers Cases.answers_nothing) as Hllm.
  { intros i parts m Hm Hno. unfold Cases.answers_nothing. eexists. by split. }
  split; [exact Hwt |]. split; [exact Hllm |].
  exact (run_gives_up_without_answer Cases.answers_nothing Cases.defaults
           "find the form" Cases.start Hwt Hllm).
Defined.

(** The run of the model that answers at its third call. *)
Lemma run_returns_answer_or_failure_witness :
  ∃ m' sent,
    run Cases.answers_third Cases.defaults "find the form" Cases.start
    = (Return "The form is on the contact page.", m', sent)
    ∧ (("The form is on the contact page." = failure_message
        ∧ length sent = Z.to_nat (default 10%Z (max_iterations Cases.defaults)))
       ∨ ("The form is on the contact page." ≠ EmptyString
          ∧ final_answer (notes m') = Some "The form is on the contact page."
          ∧ 0 < length sent)).
Proof.
  destruct (run_start Cases.answers_third Cases.defaults "find the form" Cases.start
              (fresh_well_tracked _)) as (parts & m2 & Hstart & Hwt2 & Hno).
  destruct (run_loop_answer Cases.answers_third 2 _ answers_third_spec
              ltac:(discriminate)
              (Z.to_nat (default 10%Z (max_iterations Cases.defaults))) 0 parts m2 [])
    as (m' & sent & Hloop & _); [done | by rewrite Hno | lia | cbn; lia |].
  rewrite Hloop in Hstart. exists m', sent. split; [exact Hstart |].
  exact (run_returns_answer_or_failure _ _ _ _ _ _ _ Hstart).
Defined.
